(** * RotatedTranslatedShape and DecoratedShape: a shallow embedding

    The development follows [Jolt/Physics/Collision/Shape/RotatedTranslatedShape.cpp]
    and [DecoratedShape.cpp].  Objects are records, virtual calls on the inner
    shape are calls through a record of functions, in/out parameters and
    streams are threaded explicitly, and construction passes along the world
    that [ShapeSettings::Create] may read and change.

    The math library, the stream classes, [ScaleHelpers], [CollisionDispatch]
    and the [Shape] base class are not among the sources.  The vector and
    matrix operations are written out over an abstract scalar type; the other
    collaborators are interfaces.  Statements that need algebra assume that
    the scalar operations obey the ring laws: rounding is not modelled. *)

From Stdlib Require Import ZArith List String Bool Ring Lia.
From Stdlib Require QArith Qcanon.
Import ListNotations.

Set Implicit Arguments.

(* ================================================================== *)
(** ** Scalars *)

(** Modelled from the spec: the C++ [float] type and the constant used as the
    default squared distance of [IsClose] are not part of the translated
    sources; the operations the code uses on them are gathered in one
    interface, so that every definition below runs on any instance. *)
Class FloatOps : Type := {
  float : Type;
  f0 : float;
  f1 : float;
  fadd : float -> float -> float;
  fsub : float -> float -> float;
  fmul : float -> float -> float;
  fneg : float -> float;
  fle : float -> float -> bool;
  fMaxDistSq : float
}.

Declare Scope float_scope.
Delimit Scope float_scope with flt.
Infix "+" := fadd : float_scope.
Infix "-" := fsub : float_scope.
Infix "*" := fmul : float_scope.
Notation "- x" := (fneg x) : float_scope.
Infix "<=?" := fle : float_scope.

(** Exact arithmetic: the instance used to run the model on concrete inputs. *)
#[export] Instance ZFloat : FloatOps := {|
  float := Z;
  f0 := 0%Z;
  f1 := 1%Z;
  fadd := Z.add;
  fsub := Z.sub;
  fmul := Z.mul;
  fneg := Z.opp;
  fle := Z.leb;
  fMaxDistSq := 0%Z
|}.

(* ================================================================== *)
(** ** Vectors, quaternions and matrices *)

Section Math.
Context {FO : FloatOps}.
Local Open Scope float_scope.

(** Modelled from the spec: [Vec3] (Math/Vec3.h is not among the sources). *)
Record Vec3 : Type := mkVec3 { vx : float; vy : float; vz : float }.

(** Modelled from the spec: [Vec4] (Math/Vec4.h is not among the sources). *)
Record Vec4 : Type := mkVec4 { v4x : float; v4y : float; v4z : float; v4w : float }.

(** Modelled from the spec: [Quat], stored as (x, y, z, w). *)
Record Quat : Type := mkQuat { qx : float; qy : float; qz : float; qw : float }.

(** Modelled from the spec: [Mat44], stored column-major as four columns. *)
Record Mat44 : Type := mkMat44 { col0 : Vec4; col1 : Vec4; col2 : Vec4; col3 : Vec4 }.

(** Modelled from the spec: [Vec3::operator +]. *)
Definition Vec3_add (a b : Vec3) : Vec3 :=
  mkVec3 (vx a + vx b) (vy a + vy b) (vz a + vz b).

(** Modelled from the spec: [Vec3::operator -]. *)
Definition Vec3_sub (a b : Vec3) : Vec3 :=
  mkVec3 (vx a - vx b) (vy a - vy b) (vz a - vz b).

(** Modelled from the spec: [Quat::sIdentity]. *)
Definition Quat_sIdentity : Quat := mkQuat f0 f0 f0 f1.

(** Modelled from the spec: [Quat::Conjugated], the sign of x, y and z flipped. *)
Definition Quat_Conjugated (q : Quat) : Quat :=
  mkQuat (- qx q) (- qy q) (- qz q) (qw q).

(** Modelled from the spec: [Quat::LengthSq]. *)
Definition Quat_LengthSq (q : Quat) : float :=
  qx q * qx q + qy q * qy q + qz q * qz q + qw q * qw q.

(** A quaternion is unit-length when its squared length is one (the exact
    form of [Quat::IsNormalized]). *)
Definition unit_quat (q : Quat) : Prop := Quat_LengthSq q = f1.

(** Modelled from the spec: [Quat::IsClose] with its default squared distance:
    the squared length of the difference is at most [fMaxDistSq]. *)
Definition Quat_IsClose (q rhs : Quat) : bool :=
  Quat_LengthSq (mkQuat (qx rhs - qx q) (qy rhs - qy q) (qz rhs - qz q) (qw rhs - qw q))
    <=? fMaxDistSq.

(** Modelled from the spec: [Quat::operator * (Quat)], the Hamilton product. *)
Definition Quat_mul (l r : Quat) : Quat :=
  mkQuat (qw l * qx r + qx l * qw r + qy l * qz r - qz l * qy r)
         (qw l * qy r - qx l * qz r + qy l * qw r + qz l * qx r)
         (qw l * qz r + qx l * qy r - qy l * qx r + qz l * qw r)
         (qw l * qw r - qx l * qx r - qy l * qy r - qz l * qz r).

(** Modelled from the spec: [Quat::operator * (Vec3)], q * (v, 0) * conj q. *)
Definition Quat_rotate (q : Quat) (v : Vec3) : Vec3 :=
  let r := Quat_mul (Quat_mul q (mkQuat (vx v) (vy v) (vz v) f0)) (Quat_Conjugated q) in
  mkVec3 (qx r) (qy r) (qz r).

(** Modelled from the spec: [Mat44::sIdentity]. *)
Definition Mat44_sIdentity : Mat44 :=
  mkMat44 (mkVec4 f1 f0 f0 f0) (mkVec4 f0 f1 f0 f0) (mkVec4 f0 f0 f1 f0) (mkVec4 f0 f0 f0 f1).

(** Modelled from the spec: [Mat44::sRotation], the rotation matrix of a
    quaternion (the spec's [rotationMatrix]). *)
Definition Mat44_sRotation (q : Quat) : Mat44 :=
  let x := qx q in let y := qy q in let z := qz q in let w := qw q in
  let tx := x + x in let ty := y + y in let tz := z + z in
  let xx := tx * x in let yy := ty * y in let zz := tz * z in
  let xy := tx * y in let xz := tx * z in let xw := tx * w in
  let yz := ty * z in let yw := ty * w in let zw := tz * w in
  mkMat44 (mkVec4 ((f1 - yy) - zz) (xy + zw) (xz - yw) f0)
          (mkVec4 (xy - zw) ((f1 - zz) - xx) (yz + xw) f0)
          (mkVec4 (xz + yw) (yz - xw) ((f1 - xx) - yy) f0)
          (mkVec4 f0 f0 f0 f1).

(** Modelled from the spec: [Mat44::operator * (Vec3)]: the 3x3 part applied
    to the vector, plus the translation column. *)
Definition Mat44_mulVec3 (m : Mat44) (v : Vec3) : Vec3 :=
  mkVec3 (v4x (col0 m) * vx v + v4x (col1 m) * vy v + v4x (col2 m) * vz v + v4x (col3 m))
         (v4y (col0 m) * vx v + v4y (col1 m) * vy v + v4y (col2 m) * vz v + v4y (col3 m))
         (v4z (col0 m) * vx v + v4z (col1 m) * vy v + v4z (col2 m) * vz v + v4z (col3 m)).

(** Modelled from the spec: [Mat44::Multiply3x3 (Vec3)]. *)
Definition Mat44_Multiply3x3 (m : Mat44) (v : Vec3) : Vec3 :=
  mkVec3 (v4x (col0 m) * vx v + v4x (col1 m) * vy v + v4x (col2 m) * vz v)
         (v4y (col0 m) * vx v + v4y (col1 m) * vy v + v4y (col2 m) * vz v)
         (v4z (col0 m) * vx v + v4z (col1 m) * vy v + v4z (col2 m) * vz v).

(** Modelled from the spec: [Mat44::Multiply3x3Transposed (Vec3)]: the
    transpose of the 3x3 part applied to the vector. *)
Definition Mat44_Multiply3x3Transposed (m : Mat44) (v : Vec3) : Vec3 :=
  mkVec3 (v4x (col0 m) * vx v + v4y (col0 m) * vy v + v4z (col0 m) * vz v)
         (v4x (col1 m) * vx v + v4y (col1 m) * vy v + v4z (col1 m) * vz v)
         (v4x (col2 m) * vx v + v4y (col2 m) * vy v + v4z (col2 m) * vz v).

(** Modelled from the spec: [Mat44::operator * (Vec4)]. *)
Definition Mat44_mulVec4 (m : Mat44) (v : Vec4) : Vec4 :=
  mkVec4
    (v4x (col0 m) * v4x v + v4x (col1 m) * v4y v + v4x (col2 m) * v4z v + v4x (col3 m) * v4w v)
    (v4y (col0 m) * v4x v + v4y (col1 m) * v4y v + v4y (col2 m) * v4z v + v4y (col3 m) * v4w v)
    (v4z (col0 m) * v4x v + v4z (col1 m) * v4y v + v4z (col2 m) * v4z v + v4z (col3 m) * v4w v)
    (v4w (col0 m) * v4x v + v4w (col1 m) * v4y v + v4w (col2 m) * v4z v + v4w (col3 m) * v4w v).

(** Modelled from the spec: [Mat44::operator * (Mat44)], column by column. *)
Definition Mat44_mul (a b : Mat44) : Mat44 :=
  mkMat44 (Mat44_mulVec4 a (col0 b)) (Mat44_mulVec4 a (col1 b))
          (Mat44_mulVec4 a (col2 b)) (Mat44_mulVec4 a (col3 b)).

Definition Vec3_of4 (v : Vec4) : Vec3 := mkVec3 (v4x v) (v4y v) (v4z v).
Definition Vec4_of3 (v : Vec3) : Vec4 := mkVec4 (vx v) (vy v) (vz v) f0.

(** Modelled from the spec: [Mat44::Multiply3x3 (Mat44)]: the product of the
    3x3 parts, the fourth column being (0, 0, 0, 1). *)
Definition Mat44_Multiply3x3M (a b : Mat44) : Mat44 :=
  mkMat44 (Vec4_of3 (Mat44_Multiply3x3 a (Vec3_of4 (col0 b))))
          (Vec4_of3 (Mat44_Multiply3x3 a (Vec3_of4 (col1 b))))
          (Vec4_of3 (Mat44_Multiply3x3 a (Vec3_of4 (col2 b))))
          (mkVec4 f0 f0 f0 f1).

(** Modelled from the spec: [Mat44::Transposed3x3]. *)
Definition Mat44_Transposed3x3 (m : Mat44) : Mat44 :=
  mkMat44 (mkVec4 (v4x (col0 m)) (v4x (col1 m)) (v4x (col2 m)) f0)
          (mkVec4 (v4y (col0 m)) (v4y (col1 m)) (v4y (col2 m)) f0)
          (mkVec4 (v4z (col0 m)) (v4z (col1 m)) (v4z (col2 m)) f0)
          (mkVec4 f0 f0 f0 f1).

(** Modelled from the spec: [Mat44::Multiply3x3RightTransposed]: this matrix
    times the transpose of the argument, 3x3 parts only. *)
Definition Mat44_Multiply3x3RightTransposed (a b : Mat44) : Mat44 :=
  Mat44_Multiply3x3M a (Mat44_Transposed3x3 b).

End Math.

(* ================================================================== *)
(** ** Collaborators *)

(** Modelled from the spec: the types of the external collaborators (sub-shape
    ids, cast results, collectors, query settings, the state of the [Shape]
    base class, and the state a settings object's [Create] can read and write,
    such as its memoised result).  None of them is inspected by the decorator:
    they are passed through. *)
Class CollabTypes : Type := {
  SubShapeID : Type;
  SubShapeIDCreator : Type;
  RayCastResult : Type;
  RayCastSettings : Type;
  CastRayCollector : Type;
  CollideShapeSettings : Type;
  CollideShapeCollector : Type;
  ShapeCastSettings : Type;
  ShapeFilter : Type;
  CastShapeCollector : Type;
  ShapeBase : Type;
  World : Type
}.

(** Modelled from the spec: [Result<Type>], which is empty, holds a value, or
    holds an error message. *)
Inductive Result (T : Type) : Type :=
| Result_Empty : Result T
| Result_Valid : T -> Result T
| Result_Error : string -> Result T.
Arguments Result_Empty {T}.
Arguments Result_Error {T} _.

Definition Result_IsEmpty {T} (r : Result T) : bool :=
  match r with Result_Empty => true | _ => false end.
Definition Result_IsValid {T} (r : Result T) : bool :=
  match r with Result_Valid _ => true | _ => false end.
Definition Result_HasError {T} (r : Result T) : bool :=
  match r with Result_Error _ => true | _ => false end.
(** [Get] asserts [IsValid]; outside that it has no value. *)
Definition Result_Get {T} (r : Result T) : option T :=
  match r with Result_Valid v => Some v | _ => None end.

Section Model.
Context {FO : FloatOps} {CT : CollabTypes}.

(** Modelled from the spec: [MassProperties] (mass and inertia tensor). *)
Record MassProperties : Type := mkMassProperties {
  mMass : float;
  mInertia : Mat44
}.

(** Modelled from the spec: [MassProperties::Rotate], "rotate inertia tensor by
    rotation": the inertia becomes R * I * R^T on the 3x3 part. *)
Definition MassProperties_Rotate (p : MassProperties) (inRotation : Mat44) : MassProperties :=
  mkMassProperties (mMass p)
    (Mat44_Multiply3x3RightTransposed (Mat44_Multiply3x3M inRotation (mInertia p)) inRotation).

(** Modelled from the spec: [RayCast] (origin and direction). *)
Record RayCast : Type := mkRayCast {
  mOrigin : Vec3;
  mDirection : Vec3
}.

(** Modelled from the spec: [RayCast::Transformed]: the origin is transformed,
    and the direction is the transformed end point minus the new origin. *)
Definition RayCast_Transformed (r : RayCast) (inTransform : Mat44) : RayCast :=
  let ray_origin := Mat44_mulVec3 inTransform (mOrigin r) in
  let ray_direction :=
    Vec3_sub (Mat44_mulVec3 inTransform (Vec3_add (mOrigin r) (mDirection r))) ray_origin in
  mkRayCast ray_origin ray_direction.

(** The part of the polymorphic [Shape] interface that the decorator calls on
    its inner shape: one field per virtual function.  A function with an
    in/out parameter returns the new value of that parameter. *)
Record Shape : Type := mkShape {
  Shape_GetCenterOfMass : Vec3;
  Shape_GetMassProperties : MassProperties;
  Shape_GetSurfaceNormal : SubShapeID -> Vec3 -> Vec3;
  Shape_CastRay : RayCast -> SubShapeIDCreator -> RayCastResult -> bool * RayCastResult;
  Shape_CastRayCollect :
    RayCast -> RayCastSettings -> SubShapeIDCreator -> CastRayCollector -> CastRayCollector;
  Shape_IsValidScale : Vec3 -> bool
}.

Definition ShapeResult : Type := Result Shape.

(** Modelled from the spec: a [ShapeSettings] object seen through its virtual
    [Create], which may read and update the world (it memoises its result). *)
Record ShapeSettings : Type := mkShapeSettings {
  ShapeSettings_Create : World -> ShapeResult * World
}.

(** [DecoratedShapeSettings]: the two nullable sources of the inner shape.
    The C++ settings field [mInnerShape] is named [mInnerShapeSettings] here,
    the decorator's own field having the same name.  [mSettingsBase] is what
    the [Shape] base constructor takes from the settings. *)
Record DecoratedShapeSettings : Type := mkDecoratedShapeSettings {
  mSettingsBase : ShapeBase;
  mInnerShapeSettings : option ShapeSettings;
  mInnerShapePtr : option Shape
}.

(** [RotatedTranslatedShapeSettings] adds position and rotation. *)
Record RotatedTranslatedShapeSettings : Type := mkRotatedTranslatedShapeSettings {
  mDecorated : DecoratedShapeSettings;
  mPosition : Vec3;
  mRotation_s : Quat
}.

(** Neither source of the inner shape is present (line 27 of the
    constructor). *)
Definition both_null (s : DecoratedShapeSettings) : Prop :=
  mInnerShapeSettings s = None /\ mInnerShapePtr s = None.

(** What a write to the [outResult] reference parameter can be. *)
Inductive ResultWrite : Type :=
| Write_None : ResultWrite
| Write_SetError : string -> ResultWrite
| Write_Assign : ShapeResult -> ResultWrite.

Definition apply_write (wr : ResultWrite) (outResult : ShapeResult) : ShapeResult :=
  match wr with
  | Write_None => outResult
  | Write_SetError msg => Result_Error msg
  | Write_Assign r => r
  end.

(** What [DecoratedShape::DecoratedShape] leaves behind: the base state, the
    inner shape pointer (null when the constructor returned early), and the
    write it made to [outResult]. *)
Record DecoratedShape : Type := mkDecoratedShape {
  dBase : ShapeBase;
  dInnerShape : option Shape;
  dWrite : ResultWrite
}.

(** [DecoratedShape::DecoratedShape].  The [Shape] base constructor (modelled
    from the spec: it is not in the sources) copies the base state from the
    settings and leaves [outResult] alone. *)
Definition DecoratedShape_ctor (inSettings : DecoratedShapeSettings) (w : World)
  : DecoratedShape * World :=
  let base := mSettingsBase inSettings in
  match mInnerShapeSettings inSettings, mInnerShapePtr inSettings with
  | None, None =>
      (* Check that there's a shape *)
      (mkDecoratedShape base None (Write_SetError "Inner shape is null!"), w)
  | _, Some ptr =>
      (* Use provided shape *)
      (mkDecoratedShape base (Some ptr) Write_None, w)
  | Some child, None =>
      (* Create child shape *)
      let (child_result, w') := ShapeSettings_Create child w in
      match child_result with
      | Result_Valid s => (mkDecoratedShape base (Some s) Write_None, w')
      | _ => (mkDecoratedShape base None (Write_Assign child_result), w')
      end
  end.

(** The value of [outResult] when [DecoratedShape::DecoratedShape] returns. *)
Definition DecoratedShape_outResult (d : DecoratedShape) (outResult : ShapeResult) : ShapeResult :=
  apply_write (dWrite d) outResult.

(** Modelled from the spec: [ScaleHelpers], the external rules for scale
    vectors under rotation ([isUniform], [canBeRotated], [rotate]). *)
Class ScaleHelpers : Type := {
  IsUniformScale : Vec3 -> bool;
  CanScaleBeRotated : Quat -> Vec3 -> bool;
  RotateScale : Quat -> Vec3 -> Vec3
}.

(** Modelled from the spec: the members of the [Shape] base class that the
    decorator inherits unchanged through [DecoratedShape]: the base scale
    check and the base part of the binary state.  A stream is the list of
    numeric cells written so far (output) or still to be read (input); a read
    that finds too few cells fails. *)
Definition StreamOut : Type := list float.
Definition StreamIn : Type := list float.

Class ShapeBaseOps : Type := {
  Shape_IsValidScale_base : Vec3 -> bool;
  Shape_SaveBinaryState_base : ShapeBase -> StreamOut -> StreamOut;
  Shape_RestoreBinaryState_base : ShapeBase -> StreamIn -> option (ShapeBase * StreamIn)
}.

(** Modelled from the spec: [StreamOut::Write] of a [Vec3] (three components)
    and of a [Quat] (four components), appended in order. *)
Definition StreamOut_WriteVec3 (s : StreamOut) (v : Vec3) : StreamOut :=
  s ++ [vx v; vy v; vz v].
Definition StreamOut_WriteQuat (s : StreamOut) (q : Quat) : StreamOut :=
  s ++ [qx q; qy q; qz q; qw q].

(** Modelled from the spec: [StreamIn::Read] of a [Vec3] and of a [Quat]. *)
Definition StreamIn_ReadVec3 (s : StreamIn) : option (Vec3 * StreamIn) :=
  match s with
  | x :: y :: z :: rest => Some (mkVec3 x y z, rest)
  | _ => None
  end.
Definition StreamIn_ReadQuat (s : StreamIn) : option (Quat * StreamIn) :=
  match s with
  | x :: y :: z :: w :: rest => Some (mkQuat x y z w, rest)
  | _ => None
  end.

(** Modelled from the spec: [ShapeCast], over the type of the moving shape. *)
Record ShapeCastOf (S : Type) : Type := mkShapeCast {
  mShape : S;
  mScale : Vec3;
  mCenterOfMassStart : Mat44;
  mDirection_c : Vec3
}.
Definition ShapeCast : Type := ShapeCastOf Shape.

(** Modelled from the spec: [CollisionDispatch], the generic pairwise collide
    and cast entry points; collectors are in/out and returned. *)
Class CollisionDispatch : Type := {
  sCollideShapeVsShape :
    Shape -> Shape -> Vec3 -> Vec3 -> Mat44 -> Mat44 ->
    SubShapeIDCreator -> SubShapeIDCreator -> CollideShapeSettings ->
    CollideShapeCollector -> CollideShapeCollector;
  sCastShapeVsShape :
    ShapeCast -> ShapeCastSettings -> Shape -> Vec3 -> ShapeFilter -> Mat44 ->
    SubShapeIDCreator -> SubShapeIDCreator -> CastShapeCollector -> CastShapeCollector
}.

(* ================================================================== *)
(** ** RotatedTranslatedShape *)

(** The runtime instance: the [Shape] base state, the inner shape owned by
    [DecoratedShape], and the three fields of [RotatedTranslatedShape]. *)
Record RotatedTranslatedShape : Type := mkRotatedTranslatedShape {
  mBase : ShapeBase;
  mInnerShape : Shape;
  mCenterOfMass : Vec3;
  mRotation : Quat;
  mIsRotationIdentity : bool
}.

Context {SH : ScaleHelpers} {SB : ShapeBaseOps}.

(** Modelled from the spec: [RotatedTranslatedShape::TransformScale] (declared
    in the header): the scale is passed unchanged if the rotation is identity
    or the scale is uniform, and is re-expressed via the rotation otherwise. *)
Definition RotatedTranslatedShape_TransformScale (this : RotatedTranslatedShape)
    (inScale : Vec3) : Vec3 :=
  if mIsRotationIdentity this || IsUniformScale inScale then inScale
  else RotateScale (mRotation this) inScale.

(** Modelled from the spec: [RotatedTranslatedShape::GetCenterOfMass]
    (declared in the header) returns the stored centre of mass. *)
Definition RotatedTranslatedShape_GetCenterOfMass (this : RotatedTranslatedShape) : Vec3 :=
  mCenterOfMass this.

(** [RotatedTranslatedShape::GetMassProperties] *)
Definition RotatedTranslatedShape_GetMassProperties (this : RotatedTranslatedShape)
  : MassProperties :=
  let p := Shape_GetMassProperties (mInnerShape this) in
  MassProperties_Rotate p (Mat44_sRotation (mRotation this)).

(** [RotatedTranslatedShape::GetSurfaceNormal] *)
Definition RotatedTranslatedShape_GetSurfaceNormal (this : RotatedTranslatedShape)
    (inSubShapeID : SubShapeID) (inLocalSurfacePosition : Vec3) : Vec3 :=
  let transform := Mat44_sRotation (Quat_Conjugated (mRotation this)) in
  let normal :=
    Shape_GetSurfaceNormal (mInnerShape this) inSubShapeID
      (Mat44_mulVec3 transform inLocalSurfacePosition) in
  Mat44_Multiply3x3Transposed transform normal.

(** [RotatedTranslatedShape::CastRay], single-hit variant; [ioHit] is in/out. *)
Definition RotatedTranslatedShape_CastRay (this : RotatedTranslatedShape)
    (inRay : RayCast) (inSubShapeIDCreator : SubShapeIDCreator) (ioHit : RayCastResult)
  : bool * RayCastResult :=
  let transform := Mat44_sRotation (Quat_Conjugated (mRotation this)) in
  let ray := RayCast_Transformed inRay transform in
  Shape_CastRay (mInnerShape this) ray inSubShapeIDCreator ioHit.

(** [RotatedTranslatedShape::CastRay], collector variant. *)
Definition RotatedTranslatedShape_CastRayCollect (this : RotatedTranslatedShape)
    (inRay : RayCast) (inRayCastSettings : RayCastSettings)
    (inSubShapeIDCreator : SubShapeIDCreator) (ioCollector : CastRayCollector)
  : CastRayCollector :=
  let transform := Mat44_sRotation (Quat_Conjugated (mRotation this)) in
  let ray := RayCast_Transformed inRay transform in
  Shape_CastRayCollect (mInnerShape this) ray inRayCastSettings inSubShapeIDCreator ioCollector.

(** [RotatedTranslatedShape::IsValidScale]; [DecoratedShape::IsValidScale] is
    the inherited base check. *)
Definition RotatedTranslatedShape_IsValidScale (this : RotatedTranslatedShape)
    (inScale : Vec3) : bool :=
  if negb (Shape_IsValidScale_base inScale) then false
  else if mIsRotationIdentity this || IsUniformScale inScale then
    Shape_IsValidScale (mInnerShape this) inScale
  else if negb (CanScaleBeRotated (mRotation this) inScale) then false
  else Shape_IsValidScale (mInnerShape this) (RotateScale (mRotation this) inScale).

(** The decorator seen through the [Shape] interface (the upcast of [this]). *)
Definition RotatedTranslatedShape_asShape (this : RotatedTranslatedShape) : Shape :=
  mkShape (RotatedTranslatedShape_GetCenterOfMass this)
          (RotatedTranslatedShape_GetMassProperties this)
          (RotatedTranslatedShape_GetSurfaceNormal this)
          (RotatedTranslatedShape_CastRay this)
          (RotatedTranslatedShape_CastRayCollect this)
          (RotatedTranslatedShape_IsValidScale this).

(** How a run of the constructor ends. *)
Inductive Constructed : Type :=
| Ctor_Done (this : RotatedTranslatedShape) (outResult : ShapeResult)
    (* ran to its end: the fields are set and [outResult] holds [this] *)
| Ctor_Returned (d : DecoratedShape) (outResult : ShapeResult)
    (* returned at [if (outResult.HasError())]: the fields are not set *)
| Ctor_NullInner
    (* [mInnerShape] is dereferenced while null: no defined behaviour *).

(** [RotatedTranslatedShape::RotatedTranslatedShape] *)
Definition RotatedTranslatedShape_ctor (inSettings : RotatedTranslatedShapeSettings)
    (outResult : ShapeResult) (w : World) : Constructed * World :=
  let (d, w') := DecoratedShape_ctor (mDecorated inSettings) w in
  let outResult' := DecoratedShape_outResult d outResult in
  if Result_HasError outResult' then (Ctor_Returned d outResult', w')
  else
    match dInnerShape d with
    | None => (Ctor_NullInner, w')
    | Some inner =>
        let com :=
          Vec3_add (mPosition inSettings)
                   (Quat_rotate (mRotation_s inSettings) (Shape_GetCenterOfMass inner)) in
        let rot := mRotation_s inSettings in
        let this :=
          mkRotatedTranslatedShape (dBase d) inner com rot
            (Quat_IsClose rot Quat_sIdentity) in
        (Ctor_Done this (Result_Valid (RotatedTranslatedShape_asShape this)), w')
    end.

(** [RotatedTranslatedShapeSettings::Create]: [mCachedResult] is the mutable
    cache of the settings object; the value returned is also the new cache. *)
Definition RotatedTranslatedShapeSettings_Create (this : RotatedTranslatedShapeSettings)
    (mCachedResult : ShapeResult) (w : World) : option (ShapeResult * World) :=
  if Result_IsEmpty mCachedResult then
    match RotatedTranslatedShape_ctor this mCachedResult w with
    | (Ctor_Done _ r, w') => Some (r, w')
    | (Ctor_Returned _ r, w') => Some (r, w')
    | (Ctor_NullInner, _) => None
    end
  else Some (mCachedResult, w).

(** [RotatedTranslatedShape::SaveBinaryState] *)
Definition RotatedTranslatedShape_SaveBinaryState (this : RotatedTranslatedShape)
    (inStream : StreamOut) : StreamOut :=
  let s1 := Shape_SaveBinaryState_base (mBase this) inStream in
  let s2 := StreamOut_WriteVec3 s1 (mCenterOfMass this) in
  StreamOut_WriteQuat s2 (mRotation this).

(** [RotatedTranslatedShape::RestoreBinaryState]: the fields of [this] are
    overwritten; the inner shape is not part of the binary state. *)
Definition RotatedTranslatedShape_RestoreBinaryState (this : RotatedTranslatedShape)
    (inStream : StreamIn) : option (RotatedTranslatedShape * StreamIn) :=
  match Shape_RestoreBinaryState_base (mBase this) inStream with
  | None => None
  | Some (base, s1) =>
      match StreamIn_ReadVec3 s1 with
      | None => None
      | Some (com, s2) =>
          match StreamIn_ReadQuat s2 with
          | None => None
          | Some (rot, s3) =>
              Some (mkRotatedTranslatedShape base (mInnerShape this) com rot
                      (Quat_IsClose rot Quat_sIdentity), s3)
          end
      end
  end.

Context {CD : CollisionDispatch}.

(** [RotatedTranslatedShape::sCollideRotatedTranslatedVsShape] *)
Definition RotatedTranslatedShape_sCollideRotatedTranslatedVsShape
    (inShape1 : RotatedTranslatedShape) (inShape2 : Shape) (inScale1 inScale2 : Vec3)
    (inCenterOfMassTransform1 inCenterOfMassTransform2 : Mat44)
    (inSubShapeIDCreator1 inSubShapeIDCreator2 : SubShapeIDCreator)
    (inCollideShapeSettings : CollideShapeSettings) (ioCollector : CollideShapeCollector)
  : CollideShapeCollector :=
  let transform1 := Mat44_mul inCenterOfMassTransform1 (Mat44_sRotation (mRotation inShape1)) in
  sCollideShapeVsShape (mInnerShape inShape1) inShape2
    (RotatedTranslatedShape_TransformScale inShape1 inScale1) inScale2
    transform1 inCenterOfMassTransform2
    inSubShapeIDCreator1 inSubShapeIDCreator2 inCollideShapeSettings ioCollector.

(** [RotatedTranslatedShape::sCollideShapeVsRotatedTranslated] *)
Definition RotatedTranslatedShape_sCollideShapeVsRotatedTranslated
    (inShape1 : Shape) (inShape2 : RotatedTranslatedShape) (inScale1 inScale2 : Vec3)
    (inCenterOfMassTransform1 inCenterOfMassTransform2 : Mat44)
    (inSubShapeIDCreator1 inSubShapeIDCreator2 : SubShapeIDCreator)
    (inCollideShapeSettings : CollideShapeSettings) (ioCollector : CollideShapeCollector)
  : CollideShapeCollector :=
  let transform2 := Mat44_mul inCenterOfMassTransform2 (Mat44_sRotation (mRotation inShape2)) in
  sCollideShapeVsShape inShape1 (mInnerShape inShape2)
    inScale1 (RotatedTranslatedShape_TransformScale inShape2 inScale2)
    inCenterOfMassTransform1 transform2
    inSubShapeIDCreator1 inSubShapeIDCreator2 inCollideShapeSettings ioCollector.

(** [RotatedTranslatedShape::sCastRotatedTranslatedShapeVsShape].  The shape
    of the cast is asserted to be of type RotatedTranslated and cast to it:
    the argument is typed accordingly. *)
Definition RotatedTranslatedShape_sCastRotatedTranslatedShapeVsShape
    (inShapeCast : ShapeCastOf RotatedTranslatedShape) (inShapeCastSettings : ShapeCastSettings)
    (inShape : Shape) (inScale : Vec3) (inShapeFilter : ShapeFilter)
    (inCenterOfMassTransform2 : Mat44)
    (inSubShapeIDCreator1 inSubShapeIDCreator2 : SubShapeIDCreator)
    (ioCollector : CastShapeCollector) : CastShapeCollector :=
  let shape1 := mShape inShapeCast in
  let transform :=
    Mat44_mul (mCenterOfMassStart inShapeCast) (Mat44_sRotation (mRotation shape1)) in
  let scale := RotatedTranslatedShape_TransformScale shape1 (mScale inShapeCast) in
  let shape_cast := mkShapeCast (mInnerShape shape1) scale transform (mDirection_c inShapeCast) in
  sCastShapeVsShape shape_cast inShapeCastSettings inShape inScale inShapeFilter
    inCenterOfMassTransform2 inSubShapeIDCreator1 inSubShapeIDCreator2 ioCollector.

(* ------------------------------------------------------------------ *)
(** *** The general path of the scale check, as the spec words it *)

(** The scale check without the shortcut of line 216, for an explicit
    rotation: base validity, the rotatable-scale rule, and the inner shape's
    verdict on the rotated scale. *)
Definition IsValidScale_general (rot : Quat) (inner : Shape) (inScale : Vec3) : bool :=
  Shape_IsValidScale_base inScale &&
  CanScaleBeRotated rot inScale &&
  Shape_IsValidScale inner (RotateScale rot inScale).

(** The scale transform without the shortcut, for an explicit rotation. *)
Definition TransformScale_general (rot : Quat) (inScale : Vec3) : Vec3 :=
  RotateScale rot inScale.

End Model.

(* ================================================================== *)
(** ** The remaining operations of the two classes *)

(** Modelled from the spec: further collaborator types (collectors, the
    visited set of the statistics walk, boxes, planes, body ids with the
    default-constructed id); all are passed through. *)
Class QueryTypes : Type := {
  CollidePointCollector : Type;
  TransformedShapeCollector : Type;
  VisitedShapes : Type;
  AABox : Type;
  Plane : Type;
  BodyID : Type;
  BodyID_default : BodyID
}.

Section Remaining.
Context {FO : FloatOps} {CT : CollabTypes} {QT : QueryTypes}.

(** Modelled from the spec: [Shape::Stats], a byte count ([size_t], taken as
    64 bits) and a triangle count ([uint], 32 bits). *)
Record Stats : Type := mkStats {
  mSizeBytes : Z;
  mNumTriangles : Z
}.

Definition Stats_zero : Stats := mkStats 0 0.

(** The two [+=] of [GetStatsRecursive], with the wrap-around of the two
    unsigned types. *)
Definition Stats_add (a b : Stats) : Stats :=
  mkStats ((mSizeBytes a + mSizeBytes b) mod 2 ^ 64)
          ((mNumTriangles a + mNumTriangles b) mod 2 ^ 32).

(** Modelled from the spec: [TransformedShape], a shape placed in the world
    by the position of its centre of mass, a rotation and a scale. *)
Record TransformedShape : Type := mkTransformedShape {
  mShapePositionCOM : Vec3;
  mShapeRotation : Quat;
  mShape_ts : Shape;
  mBodyID : BodyID;
  mShapeScale : Vec3
}.

(** Modelled from the spec: the [TransformedShape] constructor, which starts
    with the unit scale, and [SetShapeScale]. *)
Definition TransformedShape_ctor (inPositionCOM : Vec3) (inRotation : Quat)
    (inShape : Shape) (inBodyID : BodyID) : TransformedShape :=
  mkTransformedShape inPositionCOM inRotation inShape inBodyID (mkVec3 f1 f1 f1).

Definition TransformedShape_SetShapeScale (ts : TransformedShape) (inScale : Vec3)
  : TransformedShape :=
  mkTransformedShape (mShapePositionCOM ts) (mShapeRotation ts) (mShape_ts ts)
                     (mBodyID ts) inScale.

(** Modelled from the spec: [Mat44::sRotationTranslation]: the rotation
    matrix of the quaternion with the translation as fourth column. *)
Definition Mat44_sRotationTranslation (q : Quat) (t : Vec3) : Mat44 :=
  let r := Mat44_sRotation q in
  mkMat44 (col0 r) (col1 r) (col2 r) (mkVec4 (vx t) (vy t) (vz t) f1).

(** Modelled from the spec: [TransformedShape::GetCenterOfMassTransform]. *)
Definition TransformedShape_GetCenterOfMassTransform (ts : TransformedShape) : Mat44 :=
  Mat44_sRotationTranslation (mShapeRotation ts) (mShapePositionCOM ts).

(** Modelled from the spec: [ShapeCast::PostTransformed]: the transform is
    applied on the left of the start transform and to the direction. *)
Definition ShapeCast_PostTransformed (c : ShapeCast) (inTransform : Mat44) : ShapeCast :=
  let start := Mat44_mul inTransform (mCenterOfMassStart c) in
  let direction := Mat44_Multiply3x3 inTransform (mDirection_c c) in
  mkShapeCast (mShape c) (mScale c) start direction.

(** The virtual functions of the [Shape] interface that the record [Shape]
    does not list, as functions of the shape they are called on; collectors
    are in/out and returned, out parameters are results.
    [Shape_GetStatsRecursive_base] is the base-class implementation
    [Shape::GetStatsRecursive] run on the decorator itself. *)
Class ShapeVirtuals : Type := {
  Shape_GetWorldSpaceBounds : Shape -> Mat44 -> Vec3 -> AABox;
  Shape_GetSubmergedVolume : Shape -> Mat44 -> Vec3 -> Plane -> float * float * Vec3;
  Shape_CollidePoint :
    Shape -> Vec3 -> SubShapeIDCreator -> CollidePointCollector -> CollidePointCollector;
  Shape_CastShape :
    Shape -> ShapeCast -> ShapeCastSettings -> Vec3 -> ShapeFilter -> Mat44 ->
    SubShapeIDCreator -> SubShapeIDCreator -> CastShapeCollector -> CastShapeCollector;
  Shape_CollectTransformedShapes :
    Shape -> AABox -> Vec3 -> Quat -> Vec3 -> SubShapeIDCreator ->
    TransformedShapeCollector -> TransformedShapeCollector;
  Shape_TransformShape :
    Shape -> Mat44 -> TransformedShapeCollector -> TransformedShapeCollector;
  Shape_GetStatsRecursive : Shape -> VisitedShapes -> Stats * VisitedShapes;
  Shape_GetStatsRecursive_base :
    RotatedTranslatedShape -> VisitedShapes -> Stats * VisitedShapes
}.

Context {SH : ScaleHelpers} {SV : ShapeVirtuals}.

(** [DecoratedShape::SaveSubShapeState]: the list is cleared, then the inner
    shape is pushed. *)
Definition DecoratedShape_SaveSubShapeState (this : RotatedTranslatedShape)
    (outSubShapes : list Shape) : list Shape :=
  let cleared : list Shape := [] in
  cleared ++ [mInnerShape this].

(** The condition of the [JPH_ASSERT] in [DecoratedShape::RestoreSubShapeState].
    The assertion is checked in debug builds only; it does not guard the
    assignment. *)
Definition DecoratedShape_RestoreSubShapeState_assertion (inSubShapes : list Shape) : bool :=
  Nat.eqb (List.length inSubShapes) 1.

(** [DecoratedShape::RestoreSubShapeState]: entry 0 of the list becomes the
    inner shape, whatever the length of the list; on an empty list entry 0
    does not exist and the call has no defined result. *)
Definition DecoratedShape_RestoreSubShapeState (this : RotatedTranslatedShape)
    (inSubShapes : list Shape) : option RotatedTranslatedShape :=
  match nth_error inSubShapes 0 with
  | Some inner =>
      Some (mkRotatedTranslatedShape (mBase this) inner (mCenterOfMass this)
              (mRotation this) (mIsRotationIdentity this))
  | None => None
  end.

(** [DecoratedShape::GetStatsRecursive] *)
Definition DecoratedShape_GetStatsRecursive (this : RotatedTranslatedShape)
    (ioVisitedShapes : VisitedShapes) : Stats * VisitedShapes :=
  (* Get own stats *)
  let (stats, visited1) := Shape_GetStatsRecursive_base this ioVisitedShapes in
  (* Add child stats *)
  let (child_stats, visited2) := Shape_GetStatsRecursive (mInnerShape this) visited1 in
  (Stats_add stats child_stats, visited2).

(** A statistics function counts once, for an order on visited sets, when it
    only grows the visited set and returns zero, leaving the set alone, on
    every set that contains what one run has visited. *)
Definition counts_once (le : VisitedShapes -> VisitedShapes -> Prop)
    (f : VisitedShapes -> Stats * VisitedShapes) : Prop :=
  forall v, le v (snd (f v)) /\ forall v2, le (snd (f v)) v2 -> f v2 = (Stats_zero, v2).

(** [RotatedTranslatedShape::GetWorldSpaceBounds] *)
Definition RotatedTranslatedShape_GetWorldSpaceBounds (this : RotatedTranslatedShape)
    (inCenterOfMassTransform : Mat44) (inScale : Vec3) : AABox :=
  let transform := Mat44_mul inCenterOfMassTransform (Mat44_sRotation (mRotation this)) in
  Shape_GetWorldSpaceBounds (mInnerShape this) transform
    (RotatedTranslatedShape_TransformScale this inScale).

(** [RotatedTranslatedShape::GetSubShapeTransformedShape]; the second
    component is [outRemainder]. *)
Definition RotatedTranslatedShape_GetSubShapeTransformedShape (this : RotatedTranslatedShape)
    (inSubShapeID : SubShapeID) (inPositionCOM : Vec3) (inRotation : Quat) (inScale : Vec3)
  : TransformedShape * SubShapeID :=
  (* We don't use any bits in the sub shape ID *)
  let outRemainder := inSubShapeID in
  let ts :=
    TransformedShape_ctor inPositionCOM (Quat_mul inRotation (mRotation this))
      (mInnerShape this) BodyID_default in
  let ts := TransformedShape_SetShapeScale ts (RotatedTranslatedShape_TransformScale this inScale) in
  (ts, outRemainder).

(** [RotatedTranslatedShape::GetSubmergedVolume]; the result is the three out
    parameters. *)
Definition RotatedTranslatedShape_GetSubmergedVolume (this : RotatedTranslatedShape)
    (inCenterOfMassTransform : Mat44) (inScale : Vec3) (inSurface : Plane)
  : float * float * Vec3 :=
  let transform := Mat44_mul inCenterOfMassTransform (Mat44_sRotation (mRotation this)) in
  Shape_GetSubmergedVolume (mInnerShape this) transform
    (RotatedTranslatedShape_TransformScale this inScale) inSurface.

(** [RotatedTranslatedShape::CollidePoint] *)
Definition RotatedTranslatedShape_CollidePoint (this : RotatedTranslatedShape)
    (inPoint : Vec3) (inSubShapeIDCreator : SubShapeIDCreator)
    (ioCollector : CollidePointCollector) : CollidePointCollector :=
  let transform := Mat44_sRotation (Quat_Conjugated (mRotation this)) in
  Shape_CollidePoint (mInnerShape this) (Mat44_mulVec3 transform inPoint)
    inSubShapeIDCreator ioCollector.

(** [RotatedTranslatedShape::CastShape] *)
Definition RotatedTranslatedShape_CastShape (this : RotatedTranslatedShape)
    (inShapeCast : ShapeCast) (inShapeCastSettings : ShapeCastSettings) (inScale : Vec3)
    (inShapeFilter : ShapeFilter) (inCenterOfMassTransform2 : Mat44)
    (inSubShapeIDCreator1 inSubShapeIDCreator2 : SubShapeIDCreator)
    (ioCollector : CastShapeCollector) : CastShapeCollector :=
  (* Determine the local transform *)
  let local_transform := Mat44_sRotation (mRotation this) in
  (* Transform the shape cast *)
  let shape_cast := ShapeCast_PostTransformed inShapeCast (Mat44_Transposed3x3 local_transform) in
  Shape_CastShape (mInnerShape this) shape_cast inShapeCastSettings
    (RotatedTranslatedShape_TransformScale this inScale) inShapeFilter
    (Mat44_mul inCenterOfMassTransform2 local_transform)
    inSubShapeIDCreator1 inSubShapeIDCreator2 ioCollector.

(** [RotatedTranslatedShape::CollectTransformedShapes] *)
Definition RotatedTranslatedShape_CollectTransformedShapes (this : RotatedTranslatedShape)
    (inBox : AABox) (inPositionCOM : Vec3) (inRotation : Quat) (inScale : Vec3)
    (inSubShapeIDCreator : SubShapeIDCreator) (ioCollector : TransformedShapeCollector)
  : TransformedShapeCollector :=
  Shape_CollectTransformedShapes (mInnerShape this) inBox inPositionCOM
    (Quat_mul inRotation (mRotation this))
    (RotatedTranslatedShape_TransformScale this inScale) inSubShapeIDCreator ioCollector.

(** [RotatedTranslatedShape::TransformShape] *)
Definition RotatedTranslatedShape_TransformShape (this : RotatedTranslatedShape)
    (inCenterOfMassTransform : Mat44) (ioCollector : TransformedShapeCollector)
  : TransformedShapeCollector :=
  Shape_TransformShape (mInnerShape this)
    (Mat44_mul inCenterOfMassTransform (Mat44_sRotation (mRotation this))) ioCollector.

(** The trace of the 3x3 part, and its symmetry. *)
Definition Mat44_trace3 (m : Mat44) : float :=
  (v4x (col0 m) + v4y (col1 m) + v4z (col2 m))%flt.

Definition Mat44_symmetric3 (m : Mat44) : Prop :=
  v4y (col0 m) = v4x (col1 m) /\ v4z (col0 m) = v4x (col2 m) /\ v4z (col1 m) = v4y (col2 m).

End Remaining.

(* ================================================================== *)
(** ** A concrete instance in exact integer arithmetic *)

Module Concrete.

(** Collaborator types: ids and results are integers, collectors are lists of
    hits, the base state is the user data, and the world counts the calls to
    [Create] made so far. *)
#[export] Instance ZCollab : CollabTypes := {|
  SubShapeID := Z;
  SubShapeIDCreator := Z;
  RayCastResult := Z;
  RayCastSettings := unit;
  CastRayCollector := list Z;
  CollideShapeSettings := unit;
  CollideShapeCollector := list (Mat44 * Mat44 * Vec3 * Vec3);
  ShapeCastSettings := unit;
  ShapeFilter := unit;
  CastShapeCollector := list (Mat44 * Vec3);
  ShapeBase := Z;
  World := nat
|}.

Definition diag (m : Mat44) : Vec3 :=
  mkVec3 (v4x (col0 m)) (v4y (col1 m)) (v4z (col2 m)).

Definition off_diagonal_zero (m : Mat44) : bool :=
  (v4y (col0 m) =? 0)%Z && (v4z (col0 m) =? 0)%Z &&
  (v4x (col1 m) =? 0)%Z && (v4z (col1 m) =? 0)%Z &&
  (v4x (col2 m) =? 0)%Z && (v4y (col2 m) =? 0)%Z.

Definition sScale (s : Vec3) : Mat44 :=
  mkMat44 (mkVec4 (vx s) 0%Z 0%Z 0%Z) (mkVec4 0%Z (vy s) 0%Z 0%Z)
          (mkVec4 0%Z 0%Z (vz s) 0%Z) (mkVec4 0%Z 0%Z 0%Z 1%Z).

(** R^T * diag(scale) * R on the 3x3 part. *)
Definition conjugated_scale (q : Quat) (s : Vec3) : Mat44 :=
  let r := Mat44_sRotation q in
  Mat44_Multiply3x3M (Mat44_Transposed3x3 r) (Mat44_Multiply3x3M (sScale s) r).

(** Scale rules: a scale is uniform when its components are equal, it can be
    rotated when R^T * diag(scale) * R is diagonal, and the rotated scale is
    that diagonal. *)
#[export] Instance ZScaleHelpers : ScaleHelpers := {|
  IsUniformScale := fun s => ((vx s =? vy s) && (vy s =? vz s))%Z;
  CanScaleBeRotated := fun q s => off_diagonal_zero (conjugated_scale q s);
  RotateScale := fun q s => diag (conjugated_scale q s)
|}.

(** Base class: a scale is valid when no component is zero; the binary state
    of the base is one cell holding the user data. *)
#[export] Instance ZShapeBaseOps : ShapeBaseOps := {|
  Shape_IsValidScale_base :=
    fun s => negb ((vx s =? 0)%Z || (vy s =? 0)%Z || (vz s =? 0)%Z);
  Shape_SaveBinaryState_base := fun b out => out ++ [b];
  Shape_RestoreBinaryState_base :=
    fun _ s => match s with b :: rest => Some (b, rest) | [] => None end
|}.

(** A dispatcher that records the transforms and scales it is called with. *)
#[export] Instance ZDispatch : CollisionDispatch := {|
  sCollideShapeVsShape := fun _ _ s1 s2 t1 t2 _ _ _ c => (t1, t2, s1, s2) :: c;
  sCastShapeVsShape := fun sc _ _ _ _ _ _ _ c => (mCenterOfMassStart sc, mScale sc) :: c
|}.

(** An inner shape that accepts positive uniform scales only.  Its ray cast
    reports the dot product of origin and direction. *)
Definition ball : Shape :=
  mkShape (mkVec3 1 2 3)%Z
          (mkMassProperties 5%Z
             (mkMat44 (mkVec4 2 0 0 0) (mkVec4 0 3 0 0) (mkVec4 0 0 4 0) (mkVec4 0 0 0 1))%Z)
          (fun id pos => mkVec3 (vx pos + id) (vy pos) (vz pos))%Z
          (fun ray idc hit =>
             (true, vx (mOrigin ray) * vx (mDirection ray)
                    + vy (mOrigin ray) * vy (mDirection ray)
                    + vz (mOrigin ray) * vz (mDirection ray) + idc + hit))%Z
          (fun ray _ idc c => (vx (mOrigin ray) + vy (mDirection ray) + idc)%Z :: c)
          (fun s => (vx s =? vy s) && (vy s =? vz s) && (0 <? vx s))%Z.

(** Half a turn about the z axis, a unit quaternion. *)
Definition half_turn_z : Quat := mkQuat 0%Z 0%Z 1%Z 0%Z.

(** A quarter-turn-like quaternion (0, 0, 1, 1); it is not unit-length. *)
Definition skew_z : Quat := mkQuat 0%Z 0%Z 1%Z 1%Z.

Definition ball_settings : ShapeSettings :=
  mkShapeSettings (fun w => (Result_Valid ball, S w)).

Definition failing_settings : ShapeSettings :=
  mkShapeSettings (fun w => (Result_Error "Radius must be positive", S w)).

(** A decorator settings object with neither source of the inner shape, seen
    as the inner settings of another decorator: its [Create] fails with this
    layer's own message. *)
Definition empty_decorator_settings : ShapeSettings :=
  mkShapeSettings (fun w => (Result_Error "Inner shape is null!", S w)).

Definition identity_ball : RotatedTranslatedShape :=
  mkRotatedTranslatedShape 7%Z ball (mkVec3 1 2 3)%Z Quat_sIdentity true.

Definition turned_ball : RotatedTranslatedShape :=
  mkRotatedTranslatedShape 7%Z ball (mkVec3 9 8 3)%Z half_turn_z false.

Definition s123 : Vec3 := mkVec3 1%Z 2%Z 3%Z.

Definition no_source : DecoratedShapeSettings :=
  mkDecoratedShapeSettings 7%Z None None.

Definition from_failing_child : DecoratedShapeSettings :=
  mkDecoratedShapeSettings 7%Z (Some failing_settings) None.

Definition turned_settings : RotatedTranslatedShapeSettings :=
  mkRotatedTranslatedShapeSettings
    (mkDecoratedShapeSettings 7%Z (Some ball_settings) None)
    (mkVec3 10 20 30)%Z half_turn_z.

Definition turned_built : RotatedTranslatedShape :=
  mkRotatedTranslatedShape 7%Z ball (mkVec3 9 18 33)%Z half_turn_z false.

(** Further collaborator types: collectors record what they are handed, a
    box is the transform and scale it was asked for, and the visited set is
    the list of ids seen. *)
#[export] Instance ZQuery : QueryTypes := {|
  CollidePointCollector := list Vec3;
  TransformedShapeCollector := list (Mat44 * Vec3);
  VisitedShapes := list Z;
  AABox := Mat44 * Vec3;
  Plane := unit;
  BodyID := Z;
  BodyID_default := (-1)%Z
|}.

(** Statistics of a shape with the given id: counted when the id is new. *)
Definition visit (id : Z) (own : Stats) (v : list Z) : Stats * list Z :=
  if existsb (Z.eqb id) v then (Stats_zero, v) else (own, id :: v).

(** The other virtual functions: each records its arguments; a shape is
    identified by its mass, a decorator by its base state. *)
#[export] Instance ZVirtuals : ShapeVirtuals := {|
  Shape_GetWorldSpaceBounds := fun _ m s => (m, s);
  Shape_GetSubmergedVolume := fun s m sc _ => (v4x (col3 m), vx sc, Shape_GetCenterOfMass s);
  Shape_CollidePoint := fun _ p _ c => p :: c;
  Shape_CastShape := fun _ sc _ _ _ _ _ _ c => (mCenterOfMassStart sc, mDirection_c sc) :: c;
  Shape_CollectTransformedShapes :=
    fun _ _ pos rot s _ c => (Mat44_sRotationTranslation rot pos, s) :: c;
  Shape_TransformShape := fun _ m c => (m, mkVec3 1%Z 1%Z 1%Z) :: c;
  Shape_GetStatsRecursive :=
    fun s v => visit (mMass (Shape_GetMassProperties s)) (mkStats 100 12) v;
  Shape_GetStatsRecursive_base := fun this v => visit (mBase this) (mkStats 48 0) v
|}.

(** A second decorator around the same inner shape. *)
Definition other_turned_ball : RotatedTranslatedShape :=
  mkRotatedTranslatedShape 8%Z ball (mkVec3 0 0 0)%Z half_turn_z false.

(** Half a turn about the x axis, and a decorator that wraps [turned_ball]. *)
Definition half_turn_x : Quat := mkQuat 1%Z 0%Z 0%Z 0%Z.

Definition outer_ball : RotatedTranslatedShape :=
  mkRotatedTranslatedShape 9%Z (RotatedTranslatedShape_asShape turned_ball)
    (mkVec3 0 0 0)%Z half_turn_x false.

(** A cast of the ball, started at a turned and shifted placement. *)
Definition sweep : ShapeCast :=
  mkShapeCast ball (mkVec3 1 1 1)%Z (Mat44_sRotationTranslation half_turn_x s123) s123.

End Concrete.

(* ================================================================== *)
(** ** A concrete instance in exact rational arithmetic *)

Module NearIdentity.

Definition qc (n : Z) (d : positive) : Qcanon.Qc :=
  Qcanon.Q2Qc (QArith_base.Qmake n d).

(** Rational scalars, with the default squared distance of [IsClose],
    1.0e-12. *)
#[export] Instance QcFloat : FloatOps := {|
  float := Qcanon.Qc;
  f0 := qc 0 1;
  f1 := qc 1 1;
  fadd := Qcanon.Qcplus;
  fsub := Qcanon.Qcminus;
  fmul := Qcanon.Qcmult;
  fneg := Qcanon.Qcopp;
  fle := fun a b => QArith_base.Qle_bool (Qcanon.this a) (Qcanon.this b);
  fMaxDistSq := qc 1 1000000000000
|}.

Definition is_zero (a : Qcanon.Qc) : bool :=
  QArith_base.Qeq_bool (Qcanon.this a) (QArith_base.Qmake 0 1).

Definition same (a b : Qcanon.Qc) : bool :=
  QArith_base.Qeq_bool (Qcanon.this a) (Qcanon.this b).

Definition scale_matrix (s : Vec3 (FO := QcFloat)) : Mat44 (FO := QcFloat) :=
  mkMat44 (mkVec4 (vx s) f0 f0 f0) (mkVec4 f0 (vy s) f0 f0)
          (mkVec4 f0 f0 (vz s) f0) (mkVec4 f0 f0 f0 f1).

(** R^T * diag(scale) * R on the 3x3 part. *)
Definition conjugated_scale (q : Quat (FO := QcFloat)) (s : Vec3 (FO := QcFloat))
  : Mat44 (FO := QcFloat) :=
  let r := Mat44_sRotation q in
  Mat44_Multiply3x3M (Mat44_Transposed3x3 r) (Mat44_Multiply3x3M (scale_matrix s) r).

(** The exact scale rules: a scale is uniform when its components are equal,
    it can be rotated when R^T * diag(scale) * R is diagonal, and the rotated
    scale is that diagonal. *)
#[export] Instance QcScaleHelpers : ScaleHelpers (FO := QcFloat) := {|
  IsUniformScale := fun s => same (vx s) (vy s) && same (vy s) (vz s);
  CanScaleBeRotated := fun q s =>
    let m := conjugated_scale q s in
    is_zero (v4y (col0 m)) && is_zero (v4z (col0 m)) &&
    is_zero (v4x (col1 m)) && is_zero (v4z (col1 m)) &&
    is_zero (v4x (col2 m)) && is_zero (v4y (col2 m));
  RotateScale := fun q s =>
    let m := conjugated_scale q s in
    mkVec3 (v4x (col0 m)) (v4y (col1 m)) (v4z (col2 m))
|}.

(** Base class: a scale is valid when no component is zero; the base has no
    binary state. *)
#[export] Instance QcShapeBaseOps : ShapeBaseOps (FO := QcFloat) (CT := Concrete.ZCollab) := {|
  Shape_IsValidScale_base :=
    fun s => negb (is_zero (vx s) || is_zero (vy s) || is_zero (vz s));
  Shape_SaveBinaryState_base := fun _ out => out;
  Shape_RestoreBinaryState_base := fun b0 s => Some (b0, s)
|}.

(** An inner shape that accepts every scale. *)
Definition box : Shape (FO := QcFloat) (CT := Concrete.ZCollab) :=
  mkShape (mkVec3 f0 f0 f0)
          (mkMassProperties f1 Mat44_sIdentity)
          (fun _ pos => pos)
          (fun _ _ hit => (false, hit))
          (fun _ _ _ c => c)
          (fun _ => true).

(** A unit rotation about the z axis by about 2e-7 radians: with t = 1e-7 it
    is (0, 0, 2t / (1 + t^2), (1 - t^2) / (1 + t^2)). *)
Definition near_identity : Quat (FO := QcFloat) :=
  mkQuat f0 f0 (qc 20000000 100000000000001) (qc 99999999999999 100000000000001).

Definition near_settings
  : RotatedTranslatedShapeSettings (FO := QcFloat) (CT := Concrete.ZCollab) :=
  mkRotatedTranslatedShapeSettings
    (mkDecoratedShapeSettings (FO := QcFloat) (CT := Concrete.ZCollab) 7%Z None (Some box))
    (mkVec3 f0 f0 f0) near_identity.

(** The instance that the constructor builds from [near_settings]. *)
Definition near_box : RotatedTranslatedShape (FO := QcFloat) (CT := Concrete.ZCollab) :=
  mkRotatedTranslatedShape (FO := QcFloat) (CT := Concrete.ZCollab) 7%Z box
    (Vec3_add (mkVec3 f0 f0 f0) (Quat_rotate near_identity (Shape_GetCenterOfMass box)))
    near_identity
    (Quat_IsClose near_identity Quat_sIdentity).

Definition scale123 : Vec3 (FO := QcFloat) := mkVec3 (qc 1 1) (qc 2 1) (qc 3 1).

End NearIdentity.

(* ================================================================== *)
(** * Properties *)

(** ** Rotations in exact arithmetic *)

Section ExactMath.
Context {FO : FloatOps}.
Hypothesis Fring : ring_theory f0 f1 fadd fmul fsub fneg (@eq float).
Add Ring FloatRing : Fring.
Local Open Scope float_scope.

Lemma unit_quat_ww (q : Quat) :
  unit_quat q -> qw q * qw q = f1 - qx q * qx q - qy q * qy q - qz q * qz q.
Proof.
  unfold unit_quat, Quat_LengthSq. intros H. rewrite <- H. ring.
Qed.

Lemma sRotation_no_translation (q : Quat) (v : Vec3) :
  Mat44_mulVec3 (Mat44_sRotation q) v = Mat44_Multiply3x3 (Mat44_sRotation q) v.
Proof.
  unfold Mat44_mulVec3, Mat44_Multiply3x3, Mat44_sRotation; simpl.
  f_equal; ring.
Qed.

(** The rotation matrix of the conjugate is the transpose of the rotation
    matrix: multiplying by its transpose is rotating by [q]. *)
Lemma sRotation_Conjugated_transposed (q : Quat) (v : Vec3) :
  Mat44_Multiply3x3Transposed (Mat44_sRotation (Quat_Conjugated q)) v
  = Mat44_Multiply3x3 (Mat44_sRotation q) v.
Proof.
  unfold Mat44_Multiply3x3Transposed, Mat44_Multiply3x3, Mat44_sRotation, Quat_Conjugated; simpl.
  f_equal; ring.
Qed.

(** For a unit quaternion the conjugate's matrix undoes the rotation. *)
Lemma sRotation_Conjugated_left_inverse (q : Quat) (v : Vec3) :
  unit_quat q ->
  Mat44_mulVec3 (Mat44_sRotation (Quat_Conjugated q)) (Mat44_mulVec3 (Mat44_sRotation q) v) = v.
Proof.
  intros U. pose proof (unit_quat_ww U) as W.
  destruct v as [a b c]; destruct q as [x y z w]; simpl in W.
  unfold Mat44_mulVec3, Mat44_sRotation, Quat_Conjugated; simpl.
  f_equal; ring [W].
Qed.

Lemma sRotation_Conjugated_right_inverse (q : Quat) (v : Vec3) :
  unit_quat q ->
  Mat44_mulVec3 (Mat44_sRotation q) (Mat44_mulVec3 (Mat44_sRotation (Quat_Conjugated q)) v) = v.
Proof.
  intros U. pose proof (unit_quat_ww U) as W.
  destruct v as [a b c]; destruct q as [x y z w]; simpl in W.
  unfold Mat44_mulVec3, Mat44_sRotation, Quat_Conjugated; simpl.
  f_equal; ring [W].
Qed.

(** Rotating by a unit quaternion and multiplying by its matrix agree. *)
Lemma Quat_rotate_sRotation (q : Quat) (v : Vec3) :
  unit_quat q ->
  Quat_rotate q v = Mat44_Multiply3x3 (Mat44_sRotation q) v.
Proof.
  intros U. pose proof (unit_quat_ww U) as W.
  destruct v as [a b c]; destruct q as [x y z w]; simpl in W.
  unfold Quat_rotate, Quat_mul, Mat44_Multiply3x3, Mat44_sRotation, Quat_Conjugated; simpl.
  f_equal; ring [W].
Qed.

(** A vector is the inverse rotation of [v] when rotating it gives [v] back;
    for a unit quaternion there is exactly one. *)
Lemma inverse_rotation_unique (q : Quat) (v p : Vec3) :
  unit_quat q ->
  Mat44_Multiply3x3 (Mat44_sRotation q) p = v ->
  p = Mat44_mulVec3 (Mat44_sRotation (Quat_Conjugated q)) v.
Proof.
  intros U E. rewrite <- E, <- sRotation_no_translation.
  symmetry. apply sRotation_Conjugated_left_inverse; assumption.
Qed.

Lemma inverse_rotation_exists (q : Quat) (v : Vec3) :
  unit_quat q ->
  Mat44_Multiply3x3 (Mat44_sRotation q)
    (Mat44_mulVec3 (Mat44_sRotation (Quat_Conjugated q)) v) = v.
Proof.
  intros U. rewrite <- sRotation_no_translation.
  apply sRotation_Conjugated_right_inverse; assumption.
Qed.

(** The transformed direction of a ray under a matrix without translation is
    the matrix applied to the direction. *)
Lemma RayCast_Transformed_rotation `{CT : CollabTypes} (q : Quat) (r : RayCast) :
  RayCast_Transformed r (Mat44_sRotation q)
  = mkRayCast (Mat44_Multiply3x3 (Mat44_sRotation q) (mOrigin r))
              (Mat44_Multiply3x3 (Mat44_sRotation q) (mDirection r)).
Proof.
  destruct r as [[ox oy oz] [dx dy dz]]; destruct q as [x y z w].
  unfold RayCast_Transformed, Mat44_mulVec3, Mat44_Multiply3x3, Mat44_sRotation,
    Vec3_sub, Vec3_add; simpl.
  f_equal; f_equal; ring.
Qed.

(** The matrix of R * I * R^T acts on a vector as R (I (R^T v)). *)
Lemma Multiply3x3_rotated_inertia (r i : Mat44) (v : Vec3) :
  Mat44_Multiply3x3 (Mat44_Multiply3x3RightTransposed (Mat44_Multiply3x3M r i) r) v
  = Mat44_Multiply3x3 r (Mat44_Multiply3x3 i (Mat44_Multiply3x3Transposed r v)).
Proof.
  destruct v as [a b c].
  destruct r as [[r00 r01 r02 r03] [r10 r11 r12 r13] [r20 r21 r22 r23] r3].
  destruct i as [[i00 i01 i02 i03] [i10 i11 i12 i13] [i20 i21 i22 i23] i3].
  unfold Mat44_Multiply3x3RightTransposed, Mat44_Multiply3x3M, Mat44_Transposed3x3,
    Mat44_Multiply3x3, Mat44_Multiply3x3Transposed, Vec3_of4, Vec4_of3; simpl.
  f_equal; ring.
Qed.

Lemma sRotation_sIdentity : Mat44_sRotation Quat_sIdentity = Mat44_sIdentity.
Proof.
  unfold Mat44_sRotation, Quat_sIdentity, Mat44_sIdentity; simpl.
  f_equal; f_equal; ring.
Qed.

End ExactMath.

(* ================================================================== *)
(** ** Scale validity *)

Section ScaleValidity.
Context {FO : FloatOps} {CT : CollabTypes} {SH : ScaleHelpers} {SB : ShapeBaseOps}.

Lemma IsValidScale_base_rejected (this : RotatedTranslatedShape) (s : Vec3) :
  Shape_IsValidScale_base s = false ->
  RotatedTranslatedShape_IsValidScale this s = false.
Proof.
  intros H. unfold RotatedTranslatedShape_IsValidScale. rewrite H. reflexivity.
Qed.

Lemma IsValidScale_shortcut (this : RotatedTranslatedShape) (s : Vec3) :
  Shape_IsValidScale_base s = true ->
  mIsRotationIdentity this || IsUniformScale s = true ->
  RotatedTranslatedShape_IsValidScale this s = Shape_IsValidScale (mInnerShape this) s.
Proof.
  intros Hb Hs. unfold RotatedTranslatedShape_IsValidScale.
  rewrite Hb, Hs. reflexivity.
Qed.



(** C9 (as amended).  With the identity flag set, the scale check and the
    scale transform give what the general path gives when it is run with the
    identity rotation, provided the scale rules accept this scale under the
    identity rotation and return it unchanged; so for an instance whose
    rotation is exactly the identity they give what the general path gives
    on the instance's own rotation. *)
Theorem identity_rotation_fast_path_agrees_with_general_path
    (this : RotatedTranslatedShape) (s : Vec3) :
  CanScaleBeRotated Quat_sIdentity s = true ->
  RotateScale Quat_sIdentity s = s ->
  mIsRotationIdentity this = true ->
  (RotatedTranslatedShape_IsValidScale this s
     = IsValidScale_general Quat_sIdentity (mInnerShape this) s
   /\ RotatedTranslatedShape_TransformScale this s = TransformScale_general Quat_sIdentity s)
  /\ (mRotation this = Quat_sIdentity ->
      RotatedTranslatedShape_IsValidScale this s
        = IsValidScale_general (mRotation this) (mInnerShape this) s
      /\ RotatedTranslatedShape_TransformScale this s
         = TransformScale_general (mRotation this) s).
Proof.
  intros Hc Hr Hi.
  assert (A : RotatedTranslatedShape_IsValidScale this s
              = IsValidScale_general Quat_sIdentity (mInnerShape this) s).
  { unfold IsValidScale_general. rewrite Hc, Hr.
    destruct (Shape_IsValidScale_base s) eqn:Hb.
    - rewrite IsValidScale_shortcut; [reflexivity | assumption |].
      rewrite Hi. reflexivity.
    - rewrite IsValidScale_base_rejected by assumption. reflexivity. }
  assert (B : RotatedTranslatedShape_TransformScale this s
              = TransformScale_general Quat_sIdentity s).
  { unfold RotatedTranslatedShape_TransformScale, TransformScale_general.
    rewrite Hi, Hr. reflexivity. }
  split; [split; assumption|].
  intros Hq. rewrite Hq. split; assumption.
Qed.

End ScaleValidity.

(* ================================================================== *)
(** ** Construction *)

Section Construction.
Context {FO : FloatOps} {CT : CollabTypes}.

Lemma DecoratedShape_ctor_both_null (s : DecoratedShapeSettings) (w : World) :
  both_null s ->
  DecoratedShape_ctor s w
  = (mkDecoratedShape (mSettingsBase s) None (Write_SetError "Inner shape is null!"), w).
Proof.
  intros [H1 H2]. unfold DecoratedShape_ctor. rewrite H1, H2. reflexivity.
Qed.

Lemma DecoratedShape_ctor_ptr (s : DecoratedShapeSettings) (w : World) (ptr : Shape) :
  mInnerShapePtr s = Some ptr ->
  DecoratedShape_ctor s w = (mkDecoratedShape (mSettingsBase s) (Some ptr) Write_None, w).
Proof.
  intros H. unfold DecoratedShape_ctor. rewrite H.
  destruct (mInnerShapeSettings s); reflexivity.
Qed.

Lemma DecoratedShape_ctor_child (s : DecoratedShapeSettings) (w : World) (child : ShapeSettings) :
  mInnerShapePtr s = None ->
  mInnerShapeSettings s = Some child ->
  DecoratedShape_ctor s w
  = let (r, w') := ShapeSettings_Create child w in
    match Result_Get r with
    | Some inner => (mkDecoratedShape (mSettingsBase s) (Some inner) Write_None, w')
    | None => (mkDecoratedShape (mSettingsBase s) None (Write_Assign r), w')
    end.
Proof.
  intros H1 H2. unfold DecoratedShape_ctor. rewrite H1, H2.
  destruct (ShapeSettings_Create child w) as [r w']. destruct r; reflexivity.
Qed.

(** The constructor never sets an error of its own unless both sources are
    null. *)
Lemma DecoratedShape_ctor_SetError_inv (s : DecoratedShapeSettings) (w : World) (msg : string) :
  dWrite (fst (DecoratedShape_ctor s w)) = Write_SetError msg -> both_null s.
Proof.
  unfold DecoratedShape_ctor, both_null.
  destruct (mInnerShapeSettings s) as [child|], (mInnerShapePtr s) as [ptr|]; simpl;
    try discriminate; try (intros _; split; reflexivity).
  destruct (ShapeSettings_Create child w) as [r w']. destruct r; simpl; discriminate.
Qed.

(** C2.  The constructor raises its configuration error, and leaves the inner
    shape null, exactly when both sources of the inner shape are null: then
    [outResult] becomes the error "Inner shape is null!" whatever it held, and
    [Create] is not run.  When the inner shape has to be built from the
    settings and that does not give a valid result, the child's result is
    assigned to [outResult] as it is, and the inner shape stays null. *)
Theorem DecoratedShape_ctor_errors (s : DecoratedShapeSettings) (w : World)
    (outResult : ShapeResult) :
  (both_null s <->
     dWrite (fst (DecoratedShape_ctor s w)) = Write_SetError "Inner shape is null!") /\
  (both_null s ->
     DecoratedShape_outResult (fst (DecoratedShape_ctor s w)) outResult
       = Result_Error "Inner shape is null!"
     /\ dInnerShape (fst (DecoratedShape_ctor s w)) = None
     /\ snd (DecoratedShape_ctor s w) = w) /\
  (forall child r w',
     mInnerShapePtr s = None ->
     mInnerShapeSettings s = Some child ->
     ShapeSettings_Create child w = (r, w') ->
     Result_IsValid r = false ->
     DecoratedShape_outResult (fst (DecoratedShape_ctor s w)) outResult = r
     /\ dInnerShape (fst (DecoratedShape_ctor s w)) = None
     /\ snd (DecoratedShape_ctor s w) = w').
Proof.
  split; [split|split].
  - intros H. rewrite DecoratedShape_ctor_both_null by assumption. reflexivity.
  - apply DecoratedShape_ctor_SetError_inv.
  - intros H. rewrite DecoratedShape_ctor_both_null by assumption.
    repeat split; reflexivity.
  - intros child r w' Hp Hc Hr Hv.
    rewrite (DecoratedShape_ctor_child s w Hp Hc), Hr.
    destruct r; try discriminate; repeat split; reflexivity.
Qed.

(** C10.  When a direct inner-shape pointer is given, the constructor uses
    it whatever the inner settings object is: the outcome is the one obtained
    without any settings object, no write is made to [outResult], and the
    world that [Create] would have read and changed is left as it was. *)
Theorem DecoratedShape_ctor_pointer_wins (base : ShapeBase) (child : option ShapeSettings)
    (ptr : Shape) (w : World) :
  DecoratedShape_ctor (mkDecoratedShapeSettings base child (Some ptr)) w
    = (mkDecoratedShape base (Some ptr) Write_None, w)
  /\ DecoratedShape_ctor (mkDecoratedShapeSettings base child (Some ptr)) w
    = DecoratedShape_ctor (mkDecoratedShapeSettings base None (Some ptr)) w.
Proof.
  split.
  - apply DecoratedShape_ctor_ptr. reflexivity.
  - rewrite !(@DecoratedShape_ctor_ptr _ _ ptr) by reflexivity. reflexivity.
Qed.

End Construction.

(* ================================================================== *)
(** ** The constructed instance *)

Section Instance.
Context {FO : FloatOps} {CT : CollabTypes} {SH : ScaleHelpers} {SB : ShapeBaseOps}.

(** What a completed run of the constructor has set. *)
Lemma RotatedTranslatedShape_ctor_done_inv (settings : RotatedTranslatedShapeSettings)
    (outResult : ShapeResult) (w : World) (this : RotatedTranslatedShape)
    (r : ShapeResult) (w' : World) :
  RotatedTranslatedShape_ctor settings outResult w = (Ctor_Done this r, w') ->
  dInnerShape (fst (DecoratedShape_ctor (mDecorated settings) w)) = Some (mInnerShape this)
  /\ snd (DecoratedShape_ctor (mDecorated settings) w) = w'
  /\ this = mkRotatedTranslatedShape (mSettingsBase (mDecorated settings)) (mInnerShape this)
              (Vec3_add (mPosition settings)
                 (Quat_rotate (mRotation_s settings) (Shape_GetCenterOfMass (mInnerShape this))))
              (mRotation_s settings)
              (Quat_IsClose (mRotation_s settings) Quat_sIdentity)
  /\ r = Result_Valid (RotatedTranslatedShape_asShape this).
Proof.
  unfold RotatedTranslatedShape_ctor.
  assert (Hb : dBase (fst (DecoratedShape_ctor (mDecorated settings) w))
               = mSettingsBase (mDecorated settings)).
  { unfold DecoratedShape_ctor.
    destruct (mInnerShapeSettings (mDecorated settings)) as [c|],
             (mInnerShapePtr (mDecorated settings)); try reflexivity.
    destruct (ShapeSettings_Create c w) as [cr cw]; destruct cr; reflexivity. }
  destruct (DecoratedShape_ctor (mDecorated settings) w) as [d w1]; simpl in *.
  destruct (Result_HasError (DecoratedShape_outResult d outResult)); [discriminate|].
  destruct (dInnerShape d) as [inner|]; [|discriminate].
  intros H. inversion H; subst; clear H. simpl. rewrite Hb. repeat split; reflexivity.
Qed.

(** With a direct pointer and a result that holds no error, the constructor
    runs to its end. *)
Lemma RotatedTranslatedShape_ctor_with_pointer (base : ShapeBase)
    (child : option ShapeSettings) (S : Shape) (T : Vec3) (R : Quat)
    (outResult : ShapeResult) (w : World) :
  Result_HasError outResult = false ->
  RotatedTranslatedShape_ctor
    (mkRotatedTranslatedShapeSettings (mkDecoratedShapeSettings base child (Some S)) T R)
    outResult w
  = (let this := mkRotatedTranslatedShape base S
                   (Vec3_add T (Quat_rotate R (Shape_GetCenterOfMass S))) R
                   (Quat_IsClose R Quat_sIdentity) in
     Ctor_Done this (Result_Valid (RotatedTranslatedShape_asShape this)), w).
Proof.
  intros H. unfold RotatedTranslatedShape_ctor.
  rewrite (@DecoratedShape_ctor_ptr _ _ _ _ S) by reflexivity.
  unfold DecoratedShape_outResult; simpl. rewrite H. reflexivity.
Qed.

(** [RotatedTranslatedShapeSettings::Create] on an empty cache with neither
    source of the inner shape gives the configuration error. *)
Lemma Create_both_null (settings : RotatedTranslatedShapeSettings) (w : World) :
  both_null (mDecorated settings) ->
  RotatedTranslatedShapeSettings_Create settings Result_Empty w
  = Some (Result_Error "Inner shape is null!", w).
Proof.
  intros H. unfold RotatedTranslatedShapeSettings_Create, RotatedTranslatedShape_ctor; simpl.
  rewrite DecoratedShape_ctor_both_null by assumption. reflexivity.
Qed.

(** An error of the child's [Create] is what [Create] returns. *)
Lemma Create_child_error (settings : RotatedTranslatedShapeSettings) (w w' : World)
    (child : ShapeSettings) (msg : string) :
  mInnerShapePtr (mDecorated settings) = None ->
  mInnerShapeSettings (mDecorated settings) = Some child ->
  ShapeSettings_Create child w = (Result_Error msg, w') ->
  RotatedTranslatedShapeSettings_Create settings Result_Empty w
  = Some (Result_Error msg, w').
Proof.
  intros Hp Hc Hr.
  unfold RotatedTranslatedShapeSettings_Create, RotatedTranslatedShape_ctor; simpl.
  rewrite (DecoratedShape_ctor_child _ w Hp Hc), Hr. reflexivity.
Qed.

(** A stored result is returned again without running the constructor. *)
Lemma Create_memoised (settings : RotatedTranslatedShapeSettings) (cached : ShapeResult)
    (w : World) :
  Result_IsEmpty cached = false ->
  RotatedTranslatedShapeSettings_Create settings cached w = Some (cached, w).
Proof.
  intros H. unfold RotatedTranslatedShapeSettings_Create. rewrite H. reflexivity.
Qed.

Section Exact.
Hypothesis Fring : ring_theory f0 f1 fadd fmul fsub fneg (@eq float).

(** C3.  After a completed construction from settings with position T and
    unit rotation R, the inner shape S is the one the base constructor
    resolved, the stored centre of mass is T + R * S.centerOfMass (as the
    quaternion product and as the rotation matrix applied to it), the result
    holds the new shape, and the mass properties are those of S with the
    inertia R * I * R^T: it maps v to R (I (R^T v)). *)
Theorem ctor_center_of_mass_and_inertia (settings : RotatedTranslatedShapeSettings)
    (outResult : ShapeResult) (w : World) (this : RotatedTranslatedShape)
    (r : ShapeResult) (w' : World) :
  RotatedTranslatedShape_ctor settings outResult w = (Ctor_Done this r, w') ->
  unit_quat (mRotation_s settings) ->
  let S := mInnerShape this in
  let R := Mat44_sRotation (mRotation_s settings) in
  dInnerShape (fst (DecoratedShape_ctor (mDecorated settings) w)) = Some S
  /\ r = Result_Valid (RotatedTranslatedShape_asShape this)
  /\ mRotation this = mRotation_s settings
  /\ mCenterOfMass this
     = Vec3_add (mPosition settings)
         (Quat_rotate (mRotation_s settings) (Shape_GetCenterOfMass S))
  /\ mCenterOfMass this
     = Vec3_add (mPosition settings) (Mat44_Multiply3x3 R (Shape_GetCenterOfMass S))
  /\ mMass (RotatedTranslatedShape_GetMassProperties this) = mMass (Shape_GetMassProperties S)
  /\ mInertia (RotatedTranslatedShape_GetMassProperties this)
     = Mat44_Multiply3x3RightTransposed
         (Mat44_Multiply3x3M R (mInertia (Shape_GetMassProperties S))) R
  /\ forall v,
       Mat44_Multiply3x3 (mInertia (RotatedTranslatedShape_GetMassProperties this)) v
       = Mat44_Multiply3x3 R
           (Mat44_Multiply3x3 (mInertia (Shape_GetMassProperties S))
              (Mat44_Multiply3x3Transposed R v)).
Proof.
  intros H U S R.
  destruct (RotatedTranslatedShape_ctor_done_inv _ _ _ H) as (Hi & _ & Ht & Hr).
  assert (Hrot : mRotation this = mRotation_s settings) by (rewrite Ht; reflexivity).
  assert (Hcom : mCenterOfMass this
                 = Vec3_add (mPosition settings)
                     (Quat_rotate (mRotation_s settings) (Shape_GetCenterOfMass S)))
    by (rewrite Ht; reflexivity).
  repeat split; try assumption.
  - rewrite Hcom. rewrite (Quat_rotate_sRotation Fring) by assumption. reflexivity.
  - unfold RotatedTranslatedShape_GetMassProperties, MassProperties_Rotate; simpl.
    rewrite Hrot. reflexivity.
  - intros v. unfold RotatedTranslatedShape_GetMassProperties, MassProperties_Rotate; simpl.
    rewrite Hrot. apply (Multiply3x3_rotated_inertia Fring).
Qed.

End Exact.

(** C4.  A completed construction and a successful restore, the two
    operations that assign the rotation, leave the flag equal to
    [IsClose] of the stored rotation and the identity; what is saved does not
    depend on the flag, and what is restored does not depend on the flag the
    instance had before. *)
Theorem isRotationIdentity_invariant :
  (forall settings outResult w this r w',
     RotatedTranslatedShape_ctor settings outResult w = (Ctor_Done this r, w') ->
     mIsRotationIdentity this = Quat_IsClose (mRotation this) Quat_sIdentity) /\
  (forall this inStream this' rest,
     RotatedTranslatedShape_RestoreBinaryState this inStream = Some (this', rest) ->
     mIsRotationIdentity this' = Quat_IsClose (mRotation this') Quat_sIdentity) /\
  (forall base inner com rot flag1 flag2 out,
     RotatedTranslatedShape_SaveBinaryState
       (mkRotatedTranslatedShape base inner com rot flag1) out
     = RotatedTranslatedShape_SaveBinaryState
       (mkRotatedTranslatedShape base inner com rot flag2) out) /\
  (forall base inner com rot flag1 flag2 inStream,
     RotatedTranslatedShape_RestoreBinaryState
       (mkRotatedTranslatedShape base inner com rot flag1) inStream
     = RotatedTranslatedShape_RestoreBinaryState
       (mkRotatedTranslatedShape base inner com rot flag2) inStream).
Proof.
  repeat split.
  - intros settings outResult w this r w' H.
    destruct (RotatedTranslatedShape_ctor_done_inv _ _ _ H) as (_ & _ & Ht & _).
    rewrite Ht. reflexivity.
  - intros this inStream this' rest. unfold RotatedTranslatedShape_RestoreBinaryState.
    destruct (Shape_RestoreBinaryState_base (mBase this) inStream) as [[b s1]|]; [|discriminate].
    destruct (StreamIn_ReadVec3 s1) as [[com s2]|]; [|discriminate].
    destruct (StreamIn_ReadQuat s2) as [[rot s3]|]; [|discriminate].
    intros H. inversion H; subst. reflexivity.
Qed.

End Instance.

(* ================================================================== *)
(** ** Binary persistence *)

Section Persistence.
Context {FO : FloatOps} {CT : CollabTypes} {SH : ScaleHelpers} {SB : ShapeBaseOps}.

(** The cells written after the base state: centre of mass, then rotation. *)
Lemma SaveBinaryState_layout (this : RotatedTranslatedShape) (out : StreamOut) :
  RotatedTranslatedShape_SaveBinaryState this out
  = Shape_SaveBinaryState_base (mBase this) out
    ++ [vx (mCenterOfMass this); vy (mCenterOfMass this); vz (mCenterOfMass this)]
    ++ [qx (mRotation this); qy (mRotation this); qz (mRotation this); qw (mRotation this)].
Proof.
  unfold RotatedTranslatedShape_SaveBinaryState, StreamOut_WriteQuat, StreamOut_WriteVec3.
  rewrite <- app_assoc. reflexivity.
Qed.

(** The base class appends its cells to the stream, and reads back what it
    wrote, leaving the rest of the stream. *)
Hypothesis base_appends : forall b out,
  Shape_SaveBinaryState_base b out = out ++ Shape_SaveBinaryState_base b [].
Hypothesis base_round_trip : forall b0 b rest,
  Shape_RestoreBinaryState_base b0 (Shape_SaveBinaryState_base b [] ++ rest) = Some (b, rest).

(** C5.  [SaveBinaryState] writes the base state, then the three components
    of the centre of mass, then the four of the rotation.  Restoring what was
    saved into any instance succeeds, consumes exactly the saved cells, keeps
    that instance's inner shape, reproduces the centre of mass and the
    rotation, and sets the flag from the rotation read; on an instance with
    the same inner shape it gives back the saved instance when that one's
    flag was consistent. *)
Theorem save_restore_round_trip (this fresh : RotatedTranslatedShape)
    (out : StreamOut) (rest : StreamIn) :
  RotatedTranslatedShape_SaveBinaryState this out
  = out ++ Shape_SaveBinaryState_base (mBase this) []
    ++ [vx (mCenterOfMass this); vy (mCenterOfMass this); vz (mCenterOfMass this)]
    ++ [qx (mRotation this); qy (mRotation this); qz (mRotation this); qw (mRotation this)]
  /\ RotatedTranslatedShape_RestoreBinaryState fresh
       (RotatedTranslatedShape_SaveBinaryState this [] ++ rest)
     = Some (mkRotatedTranslatedShape (mBase this) (mInnerShape fresh)
               (mCenterOfMass this) (mRotation this)
               (Quat_IsClose (mRotation this) Quat_sIdentity), rest)
  /\ (mInnerShape fresh = mInnerShape this ->
      mIsRotationIdentity this = Quat_IsClose (mRotation this) Quat_sIdentity ->
      RotatedTranslatedShape_RestoreBinaryState fresh
        (RotatedTranslatedShape_SaveBinaryState this [] ++ rest)
      = Some (this, rest)).
Proof.
  assert (RT : RotatedTranslatedShape_RestoreBinaryState fresh
                 (RotatedTranslatedShape_SaveBinaryState this [] ++ rest)
               = Some (mkRotatedTranslatedShape (mBase this) (mInnerShape fresh)
                         (mCenterOfMass this) (mRotation this)
                         (Quat_IsClose (mRotation this) Quat_sIdentity), rest)).
  { rewrite SaveBinaryState_layout. unfold RotatedTranslatedShape_RestoreBinaryState.
    rewrite <- !app_assoc. rewrite base_round_trip. simpl.
    destruct (mCenterOfMass this), (mRotation this). reflexivity. }
  split; [|split].
  - rewrite SaveBinaryState_layout, base_appends. rewrite <- app_assoc. reflexivity.
  - exact RT.
  - intros Hi Hf. rewrite RT, Hi, <- Hf. destruct this; reflexivity.
Qed.

End Persistence.

(* ================================================================== *)
(** ** Dispatch bridges *)

Section Bridges.
Context {FO : FloatOps} {CT : CollabTypes} {SH : ScaleHelpers} {SB : ShapeBaseOps}
        {CD : CollisionDispatch}.

(** The scale-transform rule: unchanged under the identity flag or for a
    uniform scale, rotated otherwise. *)
Lemma TransformScale_cases (this : RotatedTranslatedShape) (s : Vec3) :
  (mIsRotationIdentity this = true -> RotatedTranslatedShape_TransformScale this s = s) /\
  (IsUniformScale s = true -> RotatedTranslatedShape_TransformScale this s = s) /\
  (mIsRotationIdentity this = false -> IsUniformScale s = false ->
   RotatedTranslatedShape_TransformScale this s = RotateScale (mRotation this) s).
Proof.
  unfold RotatedTranslatedShape_TransformScale. repeat split.
  - intros ->. reflexivity.
  - intros ->. rewrite orb_true_r. reflexivity.
  - intros -> ->. reflexivity.
Qed.

(** C6.  Each bridge calls the generic dispatcher once, with the inner shape
    in place of the decorator, the decorator's centre-of-mass transform
    multiplied on the right by its rotation matrix, the decorator's scale
    passed through the scale-transform rule, and every other argument as
    received. *)
Theorem bridges_unwrap_and_redispatch :
  (forall (d : RotatedTranslatedShape) (other : Shape) s1 s2 t1 t2 c1 c2 settings collector,
     RotatedTranslatedShape_sCollideRotatedTranslatedVsShape
       d other s1 s2 t1 t2 c1 c2 settings collector
     = sCollideShapeVsShape (mInnerShape d) other
         (RotatedTranslatedShape_TransformScale d s1) s2
         (Mat44_mul t1 (Mat44_sRotation (mRotation d))) t2 c1 c2 settings collector) /\
  (forall (other : Shape) (d : RotatedTranslatedShape) s1 s2 t1 t2 c1 c2 settings collector,
     RotatedTranslatedShape_sCollideShapeVsRotatedTranslated
       other d s1 s2 t1 t2 c1 c2 settings collector
     = sCollideShapeVsShape other (mInnerShape d)
         s1 (RotatedTranslatedShape_TransformScale d s2)
         t1 (Mat44_mul t2 (Mat44_sRotation (mRotation d))) c1 c2 settings collector) /\
  (forall (d : RotatedTranslatedShape) scale start direction cast_settings
          (target : Shape) target_scale filter t2 c1 c2 collector,
     RotatedTranslatedShape_sCastRotatedTranslatedShapeVsShape
       (mkShapeCast d scale start direction) cast_settings target target_scale filter
       t2 c1 c2 collector
     = sCastShapeVsShape
         (mkShapeCast (mInnerShape d) (RotatedTranslatedShape_TransformScale d scale)
            (Mat44_mul start (Mat44_sRotation (mRotation d))) direction)
         cast_settings target target_scale filter t2 c1 c2 collector).
Proof.
  repeat split.
Qed.

End Bridges.

(* ================================================================== *)
(** ** Queries in the inner shape's frame *)

Section Queries.
Context {FO : FloatOps} {CT : CollabTypes} {SH : ScaleHelpers} {SB : ShapeBaseOps}.
Hypothesis Fring : ring_theory f0 f1 fadd fmul fsub fneg (@eq float).

(** C7.  For a unit rotation, [GetSurfaceNormal] hands the inner shape the
    inverse rotation of the position, that is the one vector that the
    rotation maps to the position, and returns the inner shape's normal
    rotated by the rotation. *)
Theorem GetSurfaceNormal_rotates_back (this : RotatedTranslatedShape)
    (id : SubShapeID) (pos : Vec3) :
  unit_quat (mRotation this) ->
  let R := Mat44_sRotation (mRotation this) in
  let pos' := Mat44_mulVec3 (Mat44_sRotation (Quat_Conjugated (mRotation this))) pos in
  Mat44_Multiply3x3 R pos' = pos
  /\ (forall p, Mat44_Multiply3x3 R p = pos -> p = pos')
  /\ RotatedTranslatedShape_GetSurfaceNormal this id pos
     = Mat44_Multiply3x3 R (Shape_GetSurfaceNormal (mInnerShape this) id pos').
Proof.
  intros U R pos'. split; [|split].
  - apply (inverse_rotation_exists Fring); assumption.
  - intros p Hp. apply (inverse_rotation_unique Fring); assumption.
  - unfold RotatedTranslatedShape_GetSurfaceNormal.
    apply (sRotation_Conjugated_transposed Fring).
Qed.

(** The ray handed to the inner shape is the inverse rotation of the given
    ray: the rotation maps its origin and direction to those of the given
    ray, and no other ray has that property. *)
Lemma Transformed_ray_is_inverse_rotation (q : Quat) (ray : RayCast) :
  unit_quat q ->
  let R := Mat44_sRotation q in
  let ray' := RayCast_Transformed ray (Mat44_sRotation (Quat_Conjugated q)) in
  Mat44_Multiply3x3 R (mOrigin ray') = mOrigin ray
  /\ Mat44_Multiply3x3 R (mDirection ray') = mDirection ray
  /\ (forall r, Mat44_Multiply3x3 R (mOrigin r) = mOrigin ray ->
                Mat44_Multiply3x3 R (mDirection r) = mDirection ray -> r = ray').
Proof.
  intros U R ray'. subst ray'.
  rewrite (RayCast_Transformed_rotation Fring). simpl.
  rewrite <- !(sRotation_no_translation Fring (Quat_Conjugated q)).
  repeat split.
  - apply (inverse_rotation_exists Fring); assumption.
  - apply (inverse_rotation_exists Fring); assumption.
  - intros [o d] Ho Hd; simpl in *. f_equal.
    + apply (inverse_rotation_unique Fring); assumption.
    + apply (inverse_rotation_unique Fring); assumption.
Qed.

(** C8.  Both [CastRay] variants return, unchanged, what the inner shape
    returns for the ray transformed by the conjugate rotation; for a unit
    rotation that ray is the inverse rotation of the given one. *)
Theorem CastRay_delegates_inverse_rotated_ray (this : RotatedTranslatedShape)
    (ray : RayCast) :
  unit_quat (mRotation this) ->
  let R := Mat44_sRotation (mRotation this) in
  let ray' :=
    RayCast_Transformed ray (Mat44_sRotation (Quat_Conjugated (mRotation this))) in
  (Mat44_Multiply3x3 R (mOrigin ray') = mOrigin ray
   /\ Mat44_Multiply3x3 R (mDirection ray') = mDirection ray
   /\ (forall r, Mat44_Multiply3x3 R (mOrigin r) = mOrigin ray ->
                 Mat44_Multiply3x3 R (mDirection r) = mDirection ray -> r = ray'))
  /\ (forall idc hit,
        RotatedTranslatedShape_CastRay this ray idc hit
        = Shape_CastRay (mInnerShape this) ray' idc hit)
  /\ (forall settings idc collector,
        RotatedTranslatedShape_CastRayCollect this ray settings idc collector
        = Shape_CastRayCollect (mInnerShape this) ray' settings idc collector).
Proof.
  intros U R ray'. split; [|split].
  - apply Transformed_ray_is_inverse_rotation. assumption.
  - intros idc hit. reflexivity.
  - intros settings idc collector. reflexivity.
Qed.

End Queries.

(* ================================================================== *)
(** ** The theorems at concrete inputs *)

Section Worked.
Import Concrete.



Lemma identity_rotation_fast_path_agrees_with_general_path_witness :
  CanScaleBeRotated Quat_sIdentity s123 = true
  /\ RotateScale Quat_sIdentity s123 = s123
  /\ mIsRotationIdentity identity_ball = true
  /\ mRotation identity_ball = Quat_sIdentity
  /\ RotatedTranslatedShape_IsValidScale identity_ball s123
     = IsValidScale_general (mRotation identity_ball) ball s123
  /\ RotatedTranslatedShape_TransformScale identity_ball s123
     = TransformScale_general (mRotation identity_ball) s123.
Proof.
  assert (Hc : CanScaleBeRotated Quat_sIdentity s123 = true) by reflexivity.
  assert (Hr : RotateScale Quat_sIdentity s123 = s123) by reflexivity.
  assert (Hi : mIsRotationIdentity identity_ball = true) by reflexivity.
  assert (Hq : mRotation identity_ball = Quat_sIdentity) by reflexivity.
  split; [exact Hc|]. split; [exact Hr|]. split; [exact Hi|]. split; [exact Hq|].
  exact (proj2 (@identity_rotation_fast_path_agrees_with_general_path ZFloat ZCollab
                  ZScaleHelpers ZShapeBaseOps identity_ball s123 Hc Hr Hi) Hq).
Defined.

(** The exact scale rules treat the identity rotation as doing nothing. *)
Lemma ZScaleHelpers_identity (s : Vec3) :
  CanScaleBeRotated Quat_sIdentity s = true /\ RotateScale Quat_sIdentity s = s.
Proof.
  destruct s as [x y z].
  cbv beta iota zeta delta
    [CanScaleBeRotated RotateScale ZScaleHelpers diag conjugated_scale off_diagonal_zero
     sScale Mat44_sRotation Mat44_Multiply3x3M Mat44_Transposed3x3 Mat44_Multiply3x3
     Vec3_of4 Vec4_of3 Quat_sIdentity vx vy vz v4x v4y v4z v4w col0 col1 col2 col3
     qx qy qz qw fadd fmul fsub fneg f0 f1 float ZFloat].
  split.
  - rewrite !andb_true_iff. repeat split; apply Z.eqb_eq; ring.
  - f_equal; ring.
Qed.

Lemma DecoratedShape_ctor_errors_witness :
  both_null no_source
  /\ DecoratedShape_outResult (fst (DecoratedShape_ctor no_source 0%nat)) Result_Empty
     = Result_Error "Inner shape is null!"
  /\ ShapeSettings_Create failing_settings 0%nat
     = (Result_Error "Radius must be positive", 1%nat)
  /\ DecoratedShape_outResult (fst (DecoratedShape_ctor from_failing_child 0%nat)) Result_Empty
     = Result_Error "Radius must be positive".
Proof.
  assert (Hn : both_null no_source) by (split; reflexivity).
  split; [exact Hn|]. split.
  - apply (proj1 (proj2 (DecoratedShape_ctor_errors no_source 0%nat Result_Empty))).
    exact Hn.
  - split; [reflexivity|].
    apply (proj2 (proj2 (DecoratedShape_ctor_errors from_failing_child 0%nat Result_Empty))
             failing_settings (Result_Error "Radius must be positive") 1%nat);
      reflexivity.
Defined.

(** A child whose own [Create] fails with the same message is told apart from
    this layer raising it: the constructor assigns, it does not set. *)
Example nested_null_is_propagated :
  dWrite (fst (DecoratedShape_ctor
                 (mkDecoratedShapeSettings 7%Z (Some empty_decorator_settings) None) 0%nat))
  = Write_Assign (Result_Error "Inner shape is null!").
Proof. reflexivity. Qed.

(** With a pointer and a failing settings object, [Create] is not run: the
    call counter stays at zero and no error surfaces. *)
Example pointer_wins_over_failing_settings :
  RotatedTranslatedShapeSettings_Create
    (mkRotatedTranslatedShapeSettings
       (mkDecoratedShapeSettings 7%Z (Some failing_settings) (Some ball))
       (mkVec3 10 20 30)%Z half_turn_z)
    Result_Empty 0%nat
  = Some (Result_Valid (RotatedTranslatedShape_asShape
            (mkRotatedTranslatedShape 7%Z ball (mkVec3 9 18 33)%Z half_turn_z false)), 0%nat).
Proof. reflexivity. Qed.

Lemma turned_settings_ctor :
  RotatedTranslatedShape_ctor turned_settings Result_Empty 0%nat
  = (Ctor_Done turned_built (Result_Valid (RotatedTranslatedShape_asShape turned_built)), 1%nat).
Proof. reflexivity. Qed.

Lemma ctor_center_of_mass_and_inertia_witness :
  unit_quat half_turn_z
  /\ mCenterOfMass turned_built
     = Vec3_add (mkVec3 10 20 30)%Z
         (Mat44_Multiply3x3 (Mat44_sRotation half_turn_z) (Shape_GetCenterOfMass ball))
  /\ mMass (RotatedTranslatedShape_GetMassProperties turned_built) = 5%Z.
Proof.
  assert (U : unit_quat half_turn_z) by reflexivity.
  split; [exact U|].
  pose proof (@ctor_center_of_mass_and_inertia ZFloat ZCollab ZScaleHelpers ZShapeBaseOps InitialRing.Zth turned_settings
                Result_Empty 0%nat turned_built _ 1%nat turned_settings_ctor U) as T.
  cbv zeta in T. split.
  - exact (proj1 (proj2 (proj2 (proj2 (proj2 T))))).
  - exact (proj1 (proj2 (proj2 (proj2 (proj2 (proj2 T)))))).
Defined.

Lemma isRotationIdentity_invariant_witness :
  mIsRotationIdentity turned_built = Quat_IsClose (mRotation turned_built) Quat_sIdentity
  /\ mIsRotationIdentity identity_ball = Quat_IsClose (mRotation identity_ball) Quat_sIdentity.
Proof.
  split.
  - exact (proj1 isRotationIdentity_invariant _ _ _ _ _ _ turned_settings_ctor).
  - apply (proj1 (proj2 isRotationIdentity_invariant) turned_ball
             [7; 1; 2; 3; 0; 0; 0; 1]%Z identity_ball []).
    reflexivity.
Defined.

Lemma ZShapeBaseOps_appends (b : Z) (out : list Z) :
  Shape_SaveBinaryState_base b out = out ++ Shape_SaveBinaryState_base b [].
Proof. reflexivity. Qed.

Lemma ZShapeBaseOps_round_trip (b0 b : Z) (rest : list Z) :
  Shape_RestoreBinaryState_base b0 (Shape_SaveBinaryState_base b [] ++ rest) = Some (b, rest).
Proof. reflexivity. Qed.

Lemma save_restore_round_trip_witness :
  RotatedTranslatedShape_SaveBinaryState turned_built [] = [7; 9; 18; 33; 0; 0; 1; 0]%Z
  /\ RotatedTranslatedShape_RestoreBinaryState identity_ball
       (RotatedTranslatedShape_SaveBinaryState turned_built [] ++ [42]%Z)
     = Some (turned_built, [42]%Z).
Proof.
  split; [reflexivity|].
  apply (proj2 (proj2 (@save_restore_round_trip ZFloat ZCollab ZShapeBaseOps ZShapeBaseOps_appends
                         ZShapeBaseOps_round_trip turned_built identity_ball [] [42]%Z)));
    reflexivity.
Defined.

Lemma GetSurfaceNormal_rotates_back_witness :
  unit_quat (mRotation turned_ball)
  /\ RotatedTranslatedShape_GetSurfaceNormal turned_ball 4%Z s123
     = Mat44_Multiply3x3 (Mat44_sRotation half_turn_z)
         (Shape_GetSurfaceNormal ball 4%Z
            (Mat44_mulVec3 (Mat44_sRotation (Quat_Conjugated half_turn_z)) s123)).
Proof.
  assert (U : unit_quat (mRotation turned_ball)) by reflexivity.
  split; [exact U|].
  exact (proj2 (proj2 (@GetSurfaceNormal_rotates_back ZFloat ZCollab InitialRing.Zth
                         turned_ball 4%Z s123 U))).
Defined.

Lemma CastRay_delegates_inverse_rotated_ray_witness :
  unit_quat (mRotation turned_ball)
  /\ RotatedTranslatedShape_CastRay turned_ball (mkRayCast s123 s123) 0%Z 0%Z
     = Shape_CastRay ball (mkRayCast (mkVec3 (-1) (-2) 3) (mkVec3 (-1) (-2) 3))%Z 0%Z 0%Z.
Proof.
  assert (U : unit_quat (mRotation turned_ball)) by reflexivity.
  split; [exact U|].
  exact (proj1 (proj2 (@CastRay_delegates_inverse_rotated_ray ZFloat ZCollab
                         InitialRing.Zth turned_ball (mkRayCast s123 s123) U)) 0%Z 0%Z).
Defined.

(** The recording dispatcher shows what the first bridge passes on: the
    composed transform and rotated scale for the decorator, the other
    operand's transform and scale as received. *)
Example bridge_records_arguments :
  RotatedTranslatedShape_sCollideRotatedTranslatedVsShape turned_ball ball
    s123 (mkVec3 4 5 6)%Z Mat44_sIdentity Mat44_sIdentity 0%Z 0%Z tt []
  = [(Mat44_sRotation half_turn_z, Mat44_sIdentity, s123, mkVec3 4 5 6)%Z].
Proof. reflexivity. Qed.

End Worked.

(* ================================================================== *)
(** ** A rotation within tolerance of the identity *)

Section WorkedNearIdentity.
Import NearIdentity.

(** C9, counterexample to the claim as the spec words it.  A unit rotation
    about z by about 2e-7 radians is within the [IsClose] tolerance of the
    identity, so the constructor sets the flag; the scale (1, 2, 3) is then
    accepted on the fast path, while the general path run on the instance's
    own rotation rejects it under the exact scale rules, and the scale handed
    to the inner shape differs from the rotated scale. *)
Lemma near_identity_fast_path_differs :
  unit_quat near_identity
  /\ RotatedTranslatedShape_ctor (SH := QcScaleHelpers) (SB := QcShapeBaseOps)
       near_settings Result_Empty 0%nat
     = (Ctor_Done near_box (Result_Valid (RotatedTranslatedShape_asShape near_box)), 0%nat)
  /\ same (qz (mRotation near_box)) f0 = false
  /\ mIsRotationIdentity near_box = true
  /\ RotatedTranslatedShape_IsValidScale (SH := QcScaleHelpers) (SB := QcShapeBaseOps)
       near_box scale123 = true
  /\ IsValidScale_general (SH := QcScaleHelpers) (SB := QcShapeBaseOps)
       (mRotation near_box) (mInnerShape near_box) scale123 = false
  /\ same (vx (RotatedTranslatedShape_TransformScale (SH := QcScaleHelpers) near_box scale123))
          (vx (TransformScale_general (SH := QcScaleHelpers) (mRotation near_box) scale123))
     = false.
Proof.
  split.
  { unfold unit_quat. apply Qcanon.Qc_is_canon. vm_compute. reflexivity. }
  split; [reflexivity|].
  repeat split; vm_compute; reflexivity.
Qed.

End WorkedNearIdentity.

(* ================================================================== *)
(** ** Sub-shape state and statistics of the decorator *)

Section SubShapes.
Context {FO : FloatOps} {CT : CollabTypes} {QT : QueryTypes} {SB : ShapeBaseOps}
        {SV : ShapeVirtuals}.

Lemma RestoreSubShapeState_singleton (fresh : RotatedTranslatedShape) (inner : Shape) :
  DecoratedShape_RestoreSubShapeState fresh [inner]
  = Some (mkRotatedTranslatedShape (mBase fresh) inner (mCenterOfMass fresh)
            (mRotation fresh) (mIsRotationIdentity fresh)).
Proof. reflexivity. Qed.

Section WithBase.
Hypothesis base_round_trip : forall b0 b rest,
  Shape_RestoreBinaryState_base b0 (Shape_SaveBinaryState_base b [] ++ rest) = Some (b, rest).

Lemma RestoreBinaryState_of_saved (this fresh : RotatedTranslatedShape) (rest : StreamIn) :
  RotatedTranslatedShape_RestoreBinaryState fresh
    (RotatedTranslatedShape_SaveBinaryState this [] ++ rest)
  = Some (mkRotatedTranslatedShape (mBase this) (mInnerShape fresh)
            (mCenterOfMass this) (mRotation this)
            (Quat_IsClose (mRotation this) Quat_sIdentity), rest).
Proof.
  rewrite SaveBinaryState_layout. unfold RotatedTranslatedShape_RestoreBinaryState.
  rewrite <- !app_assoc. rewrite base_round_trip. simpl.
  destruct (mCenterOfMass this), (mRotation this). reflexivity.
Qed.

(** X2.  Saving a decorator with a consistent flag as binary state plus
    sub-shape state, and restoring both into any other decorator, gives the
    saved decorator back whole, in whichever order the two restores run. *)
Theorem full_state_round_trip (this fresh : RotatedTranslatedShape)
    (prev : list Shape) (rest : StreamIn) :
  mIsRotationIdentity this = Quat_IsClose (mRotation this) Quat_sIdentity ->
  let bin := RotatedTranslatedShape_SaveBinaryState this [] ++ rest in
  let subs := DecoratedShape_SaveSubShapeState this prev in
  match RotatedTranslatedShape_RestoreBinaryState fresh bin with
  | Some (x, rest') =>
      option_map (fun y => (y, rest')) (DecoratedShape_RestoreSubShapeState x subs)
  | None => None
  end = Some (this, rest)
  /\ match DecoratedShape_RestoreSubShapeState fresh subs with
     | Some x => RotatedTranslatedShape_RestoreBinaryState x bin
     | None => None
     end = Some (this, rest).
Proof.
  intros Hf bin subs. subst bin subs. split.
  - rewrite RestoreBinaryState_of_saved.
    unfold DecoratedShape_SaveSubShapeState; simpl.
    rewrite <- Hf. destruct this; reflexivity.
  - change (DecoratedShape_SaveSubShapeState this prev) with [mInnerShape this].
    rewrite RestoreSubShapeState_singleton, RestoreBinaryState_of_saved; simpl.
    rewrite <- Hf. destruct this; reflexivity.
Qed.

End WithBase.

Lemma Stats_add_zero : Stats_add Stats_zero Stats_zero = Stats_zero.
Proof. reflexivity. Qed.

Section Visited.
Variable le : VisitedShapes -> VisitedShapes -> Prop.
Hypothesis le_trans : forall a b c, le a b -> le b c -> le a c.

(** X3.  If the decorator's own statistics and the inner shape's statistics
    count once, so do the decorator's recursive statistics: they only grow
    the visited set, and on any larger set they are zero and leave the set
    unchanged. *)
Theorem GetStatsRecursive_counts_once (this : RotatedTranslatedShape) :
  counts_once le (Shape_GetStatsRecursive_base this) ->
  counts_once le (Shape_GetStatsRecursive (mInnerShape this)) ->
  counts_once le (DecoratedShape_GetStatsRecursive this).
Proof.
  intros Hown Hinner v. unfold DecoratedShape_GetStatsRecursive.
  destruct (Hown v) as [G1 Z1].
  destruct (Shape_GetStatsRecursive_base this v) as [o v1] eqn:E1; simpl in *.
  destruct (Hinner v1) as [G2 Z2].
  destruct (Shape_GetStatsRecursive (mInnerShape this) v1) as [c v2] eqn:E2; simpl in *.
  split.
  - apply le_trans with v1; assumption.
  - intros v3 H3.
    rewrite (Z1 v3) by (apply le_trans with v2; assumption).
    rewrite (Z2 v3) by assumption.
    rewrite Stats_add_zero. reflexivity.
Qed.

(** X4.  Two decorators that share one inner shape, walked one after the
    other with the same visited set: the second walk adds only the second
    decorator's own statistics, the inner shape contributing zero. *)
Theorem shared_inner_shape_counted_once (d1 d2 : RotatedTranslatedShape)
    (v : VisitedShapes) :
  mInnerShape d1 = mInnerShape d2 ->
  counts_once le (Shape_GetStatsRecursive (mInnerShape d1)) ->
  (forall u, le u (snd (Shape_GetStatsRecursive_base d2 u))) ->
  let v2 := snd (DecoratedShape_GetStatsRecursive d1 v) in
  DecoratedShape_GetStatsRecursive d2 v2
  = (Stats_add (fst (Shape_GetStatsRecursive_base d2 v2)) Stats_zero,
     snd (Shape_GetStatsRecursive_base d2 v2)).
Proof.
  intros Hs Hinner Hgrow v2. subst v2.
  unfold DecoratedShape_GetStatsRecursive at 2.
  unfold DecoratedShape_GetStatsRecursive.
  destruct (Shape_GetStatsRecursive_base d1 v) as [o1 v1]; simpl.
  destruct (Hinner v1) as [_ Z2].
  destruct (Shape_GetStatsRecursive (mInnerShape d1) v1) as [c v2] eqn:E2; simpl in *.
  specialize (Hgrow v2).
  destruct (Shape_GetStatsRecursive_base d2 v2) as [o2 v3]; simpl in *.
  rewrite <- Hs. rewrite (Z2 v3) by assumption. reflexivity.
Qed.

End Visited.

End SubShapes.

(* ================================================================== *)
(** ** Outcomes of construction and of the memoising factory *)

Section Outcomes.
Context {FO : FloatOps} {CT : CollabTypes} {SH : ScaleHelpers} {SB : ShapeBaseOps}.

(** X5.  The constructor runs to its end exactly when the incoming result
    holds no error and an inner shape is available (a pointer, or a valid
    result of the child's [Create]); and it reaches the dereference of a null
    inner shape exactly when there is no pointer and the child's [Create]
    returns an empty result, one that is neither valid nor an error. *)
Theorem RotatedTranslatedShape_ctor_outcome (settings : RotatedTranslatedShapeSettings)
    (outResult : ShapeResult) (w : World) :
  ((exists this r,
      fst (RotatedTranslatedShape_ctor settings outResult w) = Ctor_Done this r)
   <-> Result_HasError outResult = false
       /\ (mInnerShapePtr (mDecorated settings) <> None
           \/ exists child,
                mInnerShapeSettings (mDecorated settings) = Some child
                /\ Result_IsValid (fst (ShapeSettings_Create child w)) = true))
  /\ (fst (RotatedTranslatedShape_ctor settings outResult w) = Ctor_NullInner
      <-> mInnerShapePtr (mDecorated settings) = None
          /\ exists child,
               mInnerShapeSettings (mDecorated settings) = Some child
               /\ fst (ShapeSettings_Create child w) = Result_Empty).
Proof.
  unfold RotatedTranslatedShape_ctor, DecoratedShape_ctor, DecoratedShape_outResult.
  destruct (mInnerShapeSettings (mDecorated settings)) as [child|] eqn:Ec;
    destruct (mInnerShapePtr (mDecorated settings)) as [ptr|] eqn:Ep; simpl.
  - (* settings and pointer: the pointer is used *)
    destruct (Result_HasError outResult) eqn:Eh; simpl; split; split.
    + intros (this & r & H). discriminate.
    + intros [H _]. discriminate.
    + discriminate.
    + intros [H _]. discriminate.
    + intros _. split; [reflexivity | left; discriminate].
    + intros _. eexists; eexists; reflexivity.
    + discriminate.
    + intros [H _]. discriminate.
  - (* settings only: the child is built *)
    destruct (ShapeSettings_Create child w) as [cr w'] eqn:Er; simpl.
    destruct cr as [|inner|msg]; simpl.
    + split; split.
      * intros (this & r & H). discriminate.
      * intros [_ [H | (c & Hc & Hv)]]; [contradiction H; reflexivity|].
        inversion Hc; subst c. rewrite Er in Hv. discriminate.
      * intros _. split; [reflexivity|]. exists child. split; [reflexivity|].
        rewrite Er. reflexivity.
      * reflexivity.
    + destruct (Result_HasError outResult) eqn:Eh; simpl; split; split.
      * intros (this & r & H). discriminate.
      * intros [H _]. discriminate.
      * discriminate.
      * intros [_ (c & Hc & He)]. inversion Hc; subst c. rewrite Er in He. discriminate.
      * intros _. split; [reflexivity|]. right. exists child. split; [reflexivity|].
        rewrite Er. reflexivity.
      * intros _. eexists; eexists; reflexivity.
      * discriminate.
      * intros [_ (c & Hc & He)]. inversion Hc; subst c. rewrite Er in He. discriminate.
    + split; split.
      * intros (this & r & H). discriminate.
      * intros [_ [H | (c & Hc & Hv)]]; [contradiction H; reflexivity|].
        inversion Hc; subst c. rewrite Er in Hv. discriminate.
      * discriminate.
      * intros [_ (c & Hc & He)]. inversion Hc; subst c. rewrite Er in He. discriminate.
  - (* pointer only *)
    destruct (Result_HasError outResult) eqn:Eh; simpl; split; split.
    + intros (this & r & H). discriminate.
    + intros [H _]. discriminate.
    + discriminate.
    + intros [H _]. discriminate.
    + intros _. split; [reflexivity | left; discriminate].
    + intros _. eexists; eexists; reflexivity.
    + discriminate.
    + intros [H _]. discriminate.
  - (* neither: the configuration error *)
    split; split.
    + intros (this & r & H). discriminate.
    + intros [_ [H | (c & Hc & _)]]; [contradiction H; reflexivity | discriminate].
    + discriminate.
    + intros [_ (c & Hc & _)]. discriminate.
Qed.

(** What the constructor leaves in [outResult] is never empty. *)
Lemma RotatedTranslatedShape_ctor_result_not_empty
    (settings : RotatedTranslatedShapeSettings) (outResult : ShapeResult) (w : World) :
  match fst (RotatedTranslatedShape_ctor settings outResult w) with
  | Ctor_Done _ r => Result_IsEmpty r = false
  | Ctor_Returned _ r => Result_IsEmpty r = false
  | Ctor_NullInner => True
  end.
Proof.
  unfold RotatedTranslatedShape_ctor.
  destruct (DecoratedShape_ctor (mDecorated settings) w) as [d w'].
  destruct (Result_HasError (DecoratedShape_outResult d outResult)) eqn:Eh; simpl.
  - destruct (DecoratedShape_outResult d outResult); try discriminate. reflexivity.
  - destruct (dInnerShape d); simpl; [reflexivity | exact I].
Qed.

(** X6.  A result returned by [Create] is never empty, and it is the result
    of every later call: with that result in the cache, [Create] returns it
    again for any world and leaves the world as it is, so neither the
    constructor nor the child's [Create] is run a second time. *)
Theorem Create_is_idempotent (settings : RotatedTranslatedShapeSettings)
    (cache : ShapeResult) (w : World) (r : ShapeResult) (w' : World) :
  RotatedTranslatedShapeSettings_Create settings cache w = Some (r, w') ->
  Result_IsEmpty r = false
  /\ forall w2, RotatedTranslatedShapeSettings_Create settings r w2 = Some (r, w2).
Proof.
  intros H.
  assert (Hne : Result_IsEmpty r = false).
  { unfold RotatedTranslatedShapeSettings_Create in H.
    destruct (Result_IsEmpty cache) eqn:Ee.
    - pose proof (RotatedTranslatedShape_ctor_result_not_empty settings cache w) as Hn.
      destruct (RotatedTranslatedShape_ctor settings cache w) as [[this r0|d r0|] w0];
        simpl in Hn; inversion H; subst; assumption.
    - inversion H; subst. assumption. }
  split; [assumption|].
  intros w2. apply Create_memoised. assumption.
Qed.

(** X7.  A scale that the decorator accepts is handed on as a scale that the
    inner shape accepts: [TransformScale] of a valid scale is valid for the
    inner shape. *)
Theorem valid_scale_is_handed_on_valid (this : RotatedTranslatedShape) (s : Vec3) :
  RotatedTranslatedShape_IsValidScale this s = true ->
  Shape_IsValidScale (mInnerShape this) (RotatedTranslatedShape_TransformScale this s) = true.
Proof.
  unfold RotatedTranslatedShape_IsValidScale, RotatedTranslatedShape_TransformScale.
  destruct (Shape_IsValidScale_base s); simpl; [|discriminate].
  destruct (mIsRotationIdentity this || IsUniformScale s); [trivial|].
  destruct (CanScaleBeRotated (mRotation this) s); simpl; [trivial | discriminate].
Qed.

End Outcomes.

(* ================================================================== *)
(** ** Composition of rotations *)

Section Composition.
Context {FO : FloatOps}.
Hypothesis Fring : ring_theory f0 f1 fadd fmul fsub fneg (@eq float).
Add Ring FloatRingC : Fring.
Local Open Scope float_scope.

Lemma unit_quat_Quat_mul (q r : Quat) :
  unit_quat q -> unit_quat r -> unit_quat (Quat_mul q r).
Proof.
  unfold unit_quat. intros Hq Hr.
  assert (E : Quat_LengthSq (Quat_mul q r) = Quat_LengthSq q * Quat_LengthSq r).
  { destruct q, r. unfold Quat_LengthSq, Quat_mul; simpl. ring. }
  rewrite E, Hq, Hr. ring.
Qed.

(** The matrix of a product of unit quaternions is the product of their
    matrices. *)
Lemma sRotation_Quat_mul (q r : Quat) :
  unit_quat q -> unit_quat r ->
  Mat44_sRotation (Quat_mul q r) = Mat44_mul (Mat44_sRotation q) (Mat44_sRotation r).
Proof.
  intros Uq Ur.
  pose proof (unit_quat_ww Fring Uq) as Wq. pose proof (unit_quat_ww Fring Ur) as Wr.
  destruct q as [a b c d]; destruct r as [x y z w]; simpl in Wq, Wr.
  unfold Mat44_sRotation, Mat44_mul, Mat44_mulVec4, Quat_mul; simpl.
  f_equal; f_equal; ring [Wq Wr].
Qed.

Lemma sRotationTranslation_Quat_mul (q r : Quat) (t : Vec3) :
  unit_quat q -> unit_quat r ->
  Mat44_sRotationTranslation (Quat_mul q r) t
  = Mat44_mul (Mat44_sRotationTranslation q t) (Mat44_sRotation r).
Proof.
  intros Uq Ur.
  pose proof (unit_quat_ww Fring Uq) as Wq. pose proof (unit_quat_ww Fring Ur) as Wr.
  destruct q as [a b c d]; destruct r as [x y z w]; destruct t as [t0 t1 t2]; simpl in Wq, Wr.
  unfold Mat44_sRotationTranslation, Mat44_sRotation, Mat44_mul, Mat44_mulVec4, Quat_mul; simpl.
  f_equal; f_equal; ring [Wq Wr].
Qed.

Lemma Mat44_mul_assoc (a b c : Mat44) :
  Mat44_mul (Mat44_mul a b) c = Mat44_mul a (Mat44_mul b c).
Proof.
  destruct a as [[] [] [] []], b as [[] [] [] []], c as [[] [] [] []].
  unfold Mat44_mul, Mat44_mulVec4; simpl.
  f_equal; f_equal; ring.
Qed.

(** A unit rotation matrix times its 3x3 transpose is the identity. *)
Lemma sRotation_Transposed3x3_cancel (q : Quat) :
  unit_quat q ->
  Mat44_mul (Mat44_sRotation q) (Mat44_Transposed3x3 (Mat44_sRotation q)) = Mat44_sIdentity.
Proof.
  intros U. pose proof (unit_quat_ww Fring U) as W.
  destruct q as [x y z w]; simpl in W.
  unfold Mat44_sRotation, Mat44_Transposed3x3, Mat44_mul, Mat44_mulVec4, Mat44_sIdentity; simpl.
  f_equal; f_equal; ring [W].
Qed.

Lemma Mat44_mul_sIdentity_l (m : Mat44) : Mat44_mul Mat44_sIdentity m = m.
Proof.
  destruct m as [[] [] [] []].
  unfold Mat44_mul, Mat44_mulVec4, Mat44_sIdentity; simpl.
  f_equal; f_equal; ring.
Qed.

(** The 3x3 part of [t * R] applied to [R^T d] is the 3x3 part of [t] applied
    to [d]. *)
Lemma Multiply3x3_mul_sRotation_transposed (t : Mat44) (q : Quat) (d : Vec3) :
  unit_quat q ->
  Mat44_Multiply3x3 (Mat44_mul t (Mat44_sRotation q))
    (Mat44_Multiply3x3 (Mat44_Transposed3x3 (Mat44_sRotation q)) d)
  = Mat44_Multiply3x3 t d.
Proof.
  intros U. pose proof (unit_quat_ww Fring U) as W.
  destruct q as [x y z w]; simpl in W. destruct t as [[] [] [] []], d as [d0 d1 d2].
  unfold Mat44_sRotation, Mat44_Transposed3x3, Mat44_mul, Mat44_mulVec4, Mat44_Multiply3x3; simpl.
  f_equal; ring [W].
Qed.

(** Two conjugate rotations in a row are the conjugate rotation of the
    product. *)
Lemma sRotation_Conjugated_Quat_mul (q r : Quat) (v : Vec3) :
  unit_quat q -> unit_quat r ->
  Mat44_Multiply3x3 (Mat44_sRotation (Quat_Conjugated r))
    (Mat44_Multiply3x3 (Mat44_sRotation (Quat_Conjugated q)) v)
  = Mat44_Multiply3x3 (Mat44_sRotation (Quat_Conjugated (Quat_mul q r))) v.
Proof.
  intros Uq Ur.
  pose proof (unit_quat_ww Fring Uq) as Wq. pose proof (unit_quat_ww Fring Ur) as Wr.
  destruct q as [a b c d]; destruct r as [x y z w]; destruct v as [v0 v1 v2]; simpl in Wq, Wr.
  unfold Mat44_Multiply3x3, Mat44_sRotation, Quat_Conjugated, Quat_mul; simpl.
  f_equal; ring [Wq Wr].
Qed.

Lemma Multiply3x3Transposed_Conjugated_Quat_mul (q r : Quat) (v : Vec3) :
  unit_quat q -> unit_quat r ->
  Mat44_Multiply3x3Transposed (Mat44_sRotation (Quat_Conjugated q))
    (Mat44_Multiply3x3Transposed (Mat44_sRotation (Quat_Conjugated r)) v)
  = Mat44_Multiply3x3Transposed (Mat44_sRotation (Quat_Conjugated (Quat_mul q r))) v.
Proof.
  intros Uq Ur.
  pose proof (unit_quat_ww Fring Uq) as Wq. pose proof (unit_quat_ww Fring Ur) as Wr.
  destruct q as [a b c d]; destruct r as [x y z w]; destruct v as [v0 v1 v2]; simpl in Wq, Wr.
  unfold Mat44_Multiply3x3Transposed, Mat44_sRotation, Quat_Conjugated, Quat_mul; simpl.
  f_equal; ring [Wq Wr].
Qed.

Lemma Multiply3x3M_assoc (a b c : Mat44) :
  Mat44_Multiply3x3M (Mat44_Multiply3x3M a b) c
  = Mat44_Multiply3x3M a (Mat44_Multiply3x3M b c).
Proof.
  destruct a as [[] [] [] []], b as [[] [] [] []], c as [[] [] [] []].
  unfold Mat44_Multiply3x3M, Mat44_Multiply3x3, Vec3_of4, Vec4_of3; simpl.
  f_equal; f_equal; ring.
Qed.

Lemma Transposed3x3_Multiply3x3M (a b : Mat44) :
  Mat44_Transposed3x3 (Mat44_Multiply3x3M a b)
  = Mat44_Multiply3x3M (Mat44_Transposed3x3 b) (Mat44_Transposed3x3 a).
Proof.
  destruct a as [[] [] [] []], b as [[] [] [] []].
  unfold Mat44_Transposed3x3, Mat44_Multiply3x3M, Mat44_Multiply3x3, Vec3_of4, Vec4_of3; simpl.
  f_equal; f_equal; ring.
Qed.

Lemma Multiply3x3M_sRotation (q r : Quat) :
  unit_quat q -> unit_quat r ->
  Mat44_Multiply3x3M (Mat44_sRotation q) (Mat44_sRotation r) = Mat44_sRotation (Quat_mul q r).
Proof.
  intros Uq Ur.
  pose proof (unit_quat_ww Fring Uq) as Wq. pose proof (unit_quat_ww Fring Ur) as Wr.
  destruct q as [a b c d]; destruct r as [x y z w]; simpl in Wq, Wr.
  unfold Mat44_Multiply3x3M, Mat44_Multiply3x3, Mat44_sRotation, Quat_mul,
    Vec3_of4, Vec4_of3; simpl.
  f_equal; f_equal; ring [Wq Wr].
Qed.

(** Rotating an inertia by [r] and then by [q] is rotating it by [q * r]. *)
Lemma rotated_inertia_Quat_mul (q r : Quat) (i : Mat44) :
  unit_quat q -> unit_quat r ->
  Mat44_Multiply3x3RightTransposed
    (Mat44_Multiply3x3M (Mat44_sRotation q)
       (Mat44_Multiply3x3RightTransposed (Mat44_Multiply3x3M (Mat44_sRotation r) i)
          (Mat44_sRotation r)))
    (Mat44_sRotation q)
  = Mat44_Multiply3x3RightTransposed
      (Mat44_Multiply3x3M (Mat44_sRotation (Quat_mul q r)) i)
      (Mat44_sRotation (Quat_mul q r)).
Proof.
  intros Uq Ur. unfold Mat44_Multiply3x3RightTransposed.
  rewrite <- (Multiply3x3M_sRotation Uq Ur).
  rewrite Transposed3x3_Multiply3x3M.
  rewrite !Multiply3x3M_assoc. reflexivity.
Qed.

(** The rotated inertia keeps the trace, and stays symmetric. *)
Lemma rotated_inertia_trace (q : Quat) (i : Mat44) :
  unit_quat q ->
  Mat44_trace3
    (Mat44_Multiply3x3RightTransposed (Mat44_Multiply3x3M (Mat44_sRotation q) i)
       (Mat44_sRotation q))
  = Mat44_trace3 i.
Proof.
  intros U. pose proof (unit_quat_ww Fring U) as W.
  destruct q as [x y z w]; simpl in W.
  destruct i as [[i00 i01 i02 i03] [i10 i11 i12 i13] [i20 i21 i22 i23] i3].
  unfold Mat44_trace3, Mat44_Multiply3x3RightTransposed, Mat44_Multiply3x3M,
    Mat44_Transposed3x3, Mat44_Multiply3x3, Mat44_sRotation, Vec3_of4, Vec4_of3; simpl.
  ring [W].
Qed.

Lemma rotated_inertia_symmetric (r i : Mat44) :
  Mat44_symmetric3 i ->
  Mat44_symmetric3 (Mat44_Multiply3x3RightTransposed (Mat44_Multiply3x3M r i) r).
Proof.
  destruct r as [[r00 r01 r02 r03] [r10 r11 r12 r13] [r20 r21 r22 r23] r3].
  destruct i as [[i00 i01 i02 i03] [i10 i11 i12 i13] [i20 i21 i22 i23] i3].
  unfold Mat44_symmetric3, Mat44_Multiply3x3RightTransposed, Mat44_Multiply3x3M,
    Mat44_Transposed3x3, Mat44_Multiply3x3, Vec3_of4, Vec4_of3; simpl.
  intros (H1 & H2 & H3). subst. repeat split; ring.
Qed.

End Composition.

(* ================================================================== *)
(** ** The remaining queries in the inner shape's frame *)

Section Frames.
Context {FO : FloatOps} {CT : CollabTypes} {QT : QueryTypes} {SH : ScaleHelpers}
        {SB : ShapeBaseOps} {SV : ShapeVirtuals}.
Hypothesis Fring : ring_theory f0 f1 fadd fmul fsub fneg (@eq float).

(** X8.  For a unit rotation, [CollidePoint] tests the inner shape against
    the inverse rotation of the point, the one vector that the rotation maps
    to the point, with the id creator and the collector passed as received. *)
Theorem CollidePoint_delegates_inverse_rotated_point (this : RotatedTranslatedShape)
    (inPoint : Vec3) :
  unit_quat (mRotation this) ->
  let R := Mat44_sRotation (mRotation this) in
  let point' := Mat44_mulVec3 (Mat44_sRotation (Quat_Conjugated (mRotation this))) inPoint in
  Mat44_Multiply3x3 R point' = inPoint
  /\ (forall p, Mat44_Multiply3x3 R p = inPoint -> p = point')
  /\ (forall idc collector,
        RotatedTranslatedShape_CollidePoint this inPoint idc collector
        = Shape_CollidePoint (mInnerShape this) point' idc collector).
Proof.
  intros U R point'. split; [|split].
  - apply (inverse_rotation_exists Fring); assumption.
  - intros p Hp. apply (inverse_rotation_unique Fring); assumption.
  - intros idc collector. reflexivity.
Qed.

(** X9.  For a unit rotation, [CastShape] hands the inner shape a cast and a
    target transform that describe the same sweep in the world: the new
    target transform applied to the new start transform is the given target
    transform applied to the given start, and likewise for the direction;
    the moving shape and its scale are untouched, and the target scale goes
    through [TransformScale]. *)
Theorem CastShape_keeps_world_placement (this : RotatedTranslatedShape)
    (inShapeCast : ShapeCast) (inCenterOfMassTransform2 : Mat44) :
  unit_quat (mRotation this) ->
  let R := Mat44_sRotation (mRotation this) in
  let cast' := ShapeCast_PostTransformed inShapeCast (Mat44_Transposed3x3 R) in
  let transform2' := Mat44_mul inCenterOfMassTransform2 R in
  Mat44_mul transform2' (mCenterOfMassStart cast')
    = Mat44_mul inCenterOfMassTransform2 (mCenterOfMassStart inShapeCast)
  /\ Mat44_Multiply3x3 transform2' (mDirection_c cast')
     = Mat44_Multiply3x3 inCenterOfMassTransform2 (mDirection_c inShapeCast)
  /\ mShape cast' = mShape inShapeCast
  /\ mScale cast' = mScale inShapeCast
  /\ (forall settings scale filter c1 c2 collector,
        RotatedTranslatedShape_CastShape this inShapeCast settings scale filter
          inCenterOfMassTransform2 c1 c2 collector
        = Shape_CastShape (mInnerShape this) cast' settings
            (RotatedTranslatedShape_TransformScale this scale) filter transform2'
            c1 c2 collector).
Proof.
  intros U R cast' transform2'. subst cast' transform2' R.
  unfold ShapeCast_PostTransformed; simpl. repeat split.
  - rewrite (Mat44_mul_assoc Fring).
    rewrite <- (Mat44_mul_assoc Fring (Mat44_sRotation (mRotation this))).
    rewrite (sRotation_Transposed3x3_cancel Fring) by assumption.
    rewrite (Mat44_mul_sIdentity_l Fring). reflexivity.
  - apply (Multiply3x3_mul_sRotation_transposed Fring). assumption.
Qed.

(** X10.  For unit rotations, the transformed shape that
    [GetSubShapeTransformedShape] returns places the inner shape where the
    matrix-based queries place it: its rotation is unit, its centre-of-mass
    transform is the caller's transform times the decorator's rotation
    matrix, so its world bounds are the decorator's [GetWorldSpaceBounds],
    and [TransformShape], [GetSubmergedVolume] and [CollectTransformedShapes]
    reach the inner shape at that same placement and scale; the sub-shape id
    is returned unconsumed. *)
Theorem transformed_shape_matches_matrix_path (this : RotatedTranslatedShape)
    (id : SubShapeID) (inPositionCOM : Vec3) (inRotation : Quat) (inScale : Vec3) :
  unit_quat inRotation ->
  unit_quat (mRotation this) ->
  let ts := fst (RotatedTranslatedShape_GetSubShapeTransformedShape this id inPositionCOM
                   inRotation inScale) in
  let caller := Mat44_sRotationTranslation inRotation inPositionCOM in
  snd (RotatedTranslatedShape_GetSubShapeTransformedShape this id inPositionCOM
         inRotation inScale) = id
  /\ unit_quat (mShapeRotation ts)
  /\ TransformedShape_GetCenterOfMassTransform ts
     = Mat44_mul caller (Mat44_sRotation (mRotation this))
  /\ Shape_GetWorldSpaceBounds (mShape_ts ts) (TransformedShape_GetCenterOfMassTransform ts)
       (mShapeScale ts)
     = RotatedTranslatedShape_GetWorldSpaceBounds this caller inScale
  /\ (forall collector,
        RotatedTranslatedShape_TransformShape this caller collector
        = Shape_TransformShape (mShape_ts ts) (TransformedShape_GetCenterOfMassTransform ts)
            collector)
  /\ (forall surface,
        RotatedTranslatedShape_GetSubmergedVolume this caller inScale surface
        = Shape_GetSubmergedVolume (mShape_ts ts)
            (TransformedShape_GetCenterOfMassTransform ts) (mShapeScale ts) surface)
  /\ (forall box idc collector,
        RotatedTranslatedShape_CollectTransformedShapes this box inPositionCOM inRotation
          inScale idc collector
        = Shape_CollectTransformedShapes (mShape_ts ts) box (mShapePositionCOM ts)
            (mShapeRotation ts) (mShapeScale ts) idc collector).
Proof.
  intros Ui Ur ts caller. subst ts caller.
  unfold RotatedTranslatedShape_GetSubShapeTransformedShape,
    TransformedShape_GetCenterOfMassTransform; simpl.
  assert (E : Mat44_sRotationTranslation (Quat_mul inRotation (mRotation this)) inPositionCOM
              = Mat44_mul (Mat44_sRotationTranslation inRotation inPositionCOM)
                  (Mat44_sRotation (mRotation this)))
    by (apply (sRotationTranslation_Quat_mul Fring); assumption).
  split; [reflexivity|]. split; [apply (unit_quat_Quat_mul Fring); assumption|].
  split; [exact E|]. split; [|split; [|split]].
  - unfold RotatedTranslatedShape_GetWorldSpaceBounds. rewrite E. reflexivity.
  - intros collector. unfold RotatedTranslatedShape_TransformShape. rewrite E. reflexivity.
  - intros surface. unfold RotatedTranslatedShape_GetSubmergedVolume. rewrite E. reflexivity.
  - intros box idc collector. reflexivity.
Qed.

Lemma RayCast_Transformed_twice (q r : Quat) (ray : RayCast) :
  unit_quat q -> unit_quat r ->
  RayCast_Transformed (RayCast_Transformed ray (Mat44_sRotation (Quat_Conjugated q)))
    (Mat44_sRotation (Quat_Conjugated r))
  = RayCast_Transformed ray (Mat44_sRotation (Quat_Conjugated (Quat_mul q r))).
Proof.
  intros Uq Ur. rewrite !(RayCast_Transformed_rotation Fring). simpl.
  rewrite !(sRotation_Conjugated_Quat_mul Fring) by assumption. reflexivity.
Qed.

(** X11.  A decorator whose inner shape is itself a decorator answers like
    one decorator around the innermost shape with the product of the two
    unit rotations: for both ray casts, for the surface normal and for the
    mass properties. *)
Theorem nested_decorators_compose (outer inner : RotatedTranslatedShape) :
  mInnerShape outer = RotatedTranslatedShape_asShape inner ->
  unit_quat (mRotation outer) ->
  unit_quat (mRotation inner) ->
  let flat :=
    mkRotatedTranslatedShape (mBase outer) (mInnerShape inner) (mCenterOfMass outer)
      (Quat_mul (mRotation outer) (mRotation inner)) (mIsRotationIdentity outer) in
  (forall ray idc hit,
     RotatedTranslatedShape_CastRay outer ray idc hit
     = RotatedTranslatedShape_CastRay flat ray idc hit)
  /\ (forall ray settings idc collector,
        RotatedTranslatedShape_CastRayCollect outer ray settings idc collector
        = RotatedTranslatedShape_CastRayCollect flat ray settings idc collector)
  /\ (forall id pos,
        RotatedTranslatedShape_GetSurfaceNormal outer id pos
        = RotatedTranslatedShape_GetSurfaceNormal flat id pos)
  /\ RotatedTranslatedShape_GetMassProperties outer
     = RotatedTranslatedShape_GetMassProperties flat.
Proof.
  intros Hin Uo Ui flat. subst flat. repeat split.
  - intros ray idc hit. unfold RotatedTranslatedShape_CastRay at 1. rewrite Hin. simpl.
    unfold RotatedTranslatedShape_CastRay. simpl.
    rewrite RayCast_Transformed_twice by assumption. reflexivity.
  - intros ray settings idc collector.
    unfold RotatedTranslatedShape_CastRayCollect at 1. rewrite Hin. simpl.
    unfold RotatedTranslatedShape_CastRayCollect. simpl.
    rewrite RayCast_Transformed_twice by assumption. reflexivity.
  - intros id pos. unfold RotatedTranslatedShape_GetSurfaceNormal at 1. rewrite Hin. simpl.
    unfold RotatedTranslatedShape_GetSurfaceNormal. simpl.
    rewrite !(sRotation_no_translation Fring).
    rewrite (sRotation_Conjugated_Quat_mul Fring) by assumption.
    rewrite (Multiply3x3Transposed_Conjugated_Quat_mul Fring) by assumption.
    reflexivity.
  - unfold RotatedTranslatedShape_GetMassProperties at 1. rewrite Hin. simpl.
    unfold RotatedTranslatedShape_GetMassProperties, MassProperties_Rotate. simpl.
    rewrite (rotated_inertia_Quat_mul Fring) by assumption. reflexivity.
Qed.

(** X12.  For a unit rotation, the mass properties of the decorator keep the
    trace of the inner shape's inertia, and keep the inertia symmetric when
    the inner shape's is. *)
Theorem GetMassProperties_keeps_trace_and_symmetry (this : RotatedTranslatedShape) :
  unit_quat (mRotation this) ->
  Mat44_trace3 (mInertia (RotatedTranslatedShape_GetMassProperties this))
    = Mat44_trace3 (mInertia (Shape_GetMassProperties (mInnerShape this)))
  /\ (Mat44_symmetric3 (mInertia (Shape_GetMassProperties (mInnerShape this))) ->
      Mat44_symmetric3 (mInertia (RotatedTranslatedShape_GetMassProperties this))).
Proof.
  intros U. unfold RotatedTranslatedShape_GetMassProperties, MassProperties_Rotate; simpl.
  split.
  - apply (rotated_inertia_trace Fring). assumption.
  - apply (rotated_inertia_symmetric Fring).
Qed.

End Frames.

(* ================================================================== *)
(** ** The further theorems at concrete inputs *)

Section WorkedMore.
Import Concrete.

Lemma full_state_round_trip_witness :
  mIsRotationIdentity turned_built = Quat_IsClose (mRotation turned_built) Quat_sIdentity
  /\ match DecoratedShape_RestoreSubShapeState identity_ball
             (DecoratedShape_SaveSubShapeState turned_built [ball; ball]) with
     | Some x =>
         RotatedTranslatedShape_RestoreBinaryState x
           (RotatedTranslatedShape_SaveBinaryState turned_built [] ++ [42]%Z)
     | None => None
     end = Some (turned_built, [42]%Z).
Proof.
  assert (Hf : mIsRotationIdentity turned_built
               = Quat_IsClose (mRotation turned_built) Quat_sIdentity) by reflexivity.
  split; [exact Hf|].
  exact (proj2 (@full_state_round_trip ZFloat ZCollab ZShapeBaseOps ZShapeBaseOps_round_trip
                  turned_built identity_ball [ball; ball] [42]%Z Hf)).
Defined.

Lemma incl_trans_Z (a b c : list Z) : incl a b -> incl b c -> incl a c.
Proof. apply incl_tran. Qed.

Lemma visit_counts_once (id : Z) (own : Stats) :
  counts_once (QT := ZQuery) (@incl Z) (visit id own).
Proof.
  assert (Hin : forall v2 : list Z, In id v2 -> existsb (Z.eqb id) v2 = true).
  { intros v2 H. apply existsb_exists. exists id. split; [assumption | apply Z.eqb_refl]. }
  intros v. unfold visit. destruct (existsb (Z.eqb id) v) eqn:E; simpl.
  - split; [apply incl_refl|]. intros v2 H.
    apply existsb_exists in E. destruct E as (x & Hx & Ex). apply Z.eqb_eq in Ex. subst x.
    rewrite (Hin v2 (H id Hx)). reflexivity.
  - split; [apply incl_tl, incl_refl|]. intros v2 H.
    rewrite (Hin v2 (H id (in_eq id v))). reflexivity.
Qed.

Lemma GetStatsRecursive_counts_once_witness :
  counts_once (@incl Z) (Shape_GetStatsRecursive_base turned_ball)
  /\ counts_once (@incl Z) (Shape_GetStatsRecursive (mInnerShape turned_ball))
  /\ counts_once (@incl Z) (DecoratedShape_GetStatsRecursive turned_ball)
  /\ DecoratedShape_GetStatsRecursive turned_ball [] = (mkStats 148 12, [5; 7]%Z)
  /\ DecoratedShape_GetStatsRecursive turned_ball [5; 7]%Z = (Stats_zero, [5; 7]%Z).
Proof.
  assert (H1 : counts_once (@incl Z) (Shape_GetStatsRecursive_base turned_ball))
    by apply visit_counts_once.
  assert (H2 : counts_once (@incl Z) (Shape_GetStatsRecursive (mInnerShape turned_ball)))
    by apply visit_counts_once.
  split; [exact H1|]. split; [exact H2|]. split.
  - exact (@GetStatsRecursive_counts_once ZFloat ZCollab ZQuery ZVirtuals (@incl Z)
             incl_trans_Z turned_ball H1 H2).
  - split; reflexivity.
Defined.

Lemma shared_inner_shape_counted_once_witness :
  mInnerShape turned_ball = mInnerShape other_turned_ball
  /\ DecoratedShape_GetStatsRecursive turned_ball [] = (mkStats 148 12, [5; 7]%Z)
  /\ DecoratedShape_GetStatsRecursive other_turned_ball [5; 7]%Z
     = (mkStats 48 0, [8; 5; 7]%Z).
Proof.
  split; [reflexivity|]. split; [reflexivity|].
  exact (@shared_inner_shape_counted_once ZFloat ZCollab ZQuery ZVirtuals (@incl Z)
           turned_ball other_turned_ball [] eq_refl (visit_counts_once 5 (mkStats 100 12))
           (fun u => proj1 (visit_counts_once 8 (mkStats 48 0) u))).
Defined.

Lemma Create_is_idempotent_witness :
  RotatedTranslatedShapeSettings_Create turned_settings Result_Empty 0%nat
    = Some (Result_Valid (RotatedTranslatedShape_asShape turned_built), 1%nat)
  /\ RotatedTranslatedShapeSettings_Create turned_settings
       (Result_Valid (RotatedTranslatedShape_asShape turned_built)) 1%nat
     = Some (Result_Valid (RotatedTranslatedShape_asShape turned_built), 1%nat).
Proof.
  assert (H : RotatedTranslatedShapeSettings_Create turned_settings Result_Empty 0%nat
              = Some (Result_Valid (RotatedTranslatedShape_asShape turned_built), 1%nat))
    by reflexivity.
  split; [exact H|].
  exact (proj2 (@Create_is_idempotent ZFloat ZCollab ZScaleHelpers ZShapeBaseOps
                  turned_settings Result_Empty 0%nat _ 1%nat H) 1%nat).
Defined.

Lemma valid_scale_is_handed_on_valid_witness :
  RotatedTranslatedShape_IsValidScale turned_ball (mkVec3 2 2 2)%Z = true
  /\ Shape_IsValidScale ball
       (RotatedTranslatedShape_TransformScale turned_ball (mkVec3 2 2 2)%Z) = true.
Proof.
  assert (H : RotatedTranslatedShape_IsValidScale turned_ball (mkVec3 2 2 2)%Z = true)
    by reflexivity.
  split; [exact H|].
  exact (@valid_scale_is_handed_on_valid ZFloat ZCollab ZScaleHelpers ZShapeBaseOps
           turned_ball (mkVec3 2 2 2)%Z H).
Defined.

Lemma CollidePoint_delegates_inverse_rotated_point_witness :
  unit_quat (mRotation turned_ball)
  /\ RotatedTranslatedShape_CollidePoint turned_ball s123 0%Z []
     = Shape_CollidePoint ball (mkVec3 (-1) (-2) 3)%Z 0%Z [].
Proof.
  assert (U : unit_quat (mRotation turned_ball)) by reflexivity.
  split; [exact U|].
  exact (proj2 (proj2 (@CollidePoint_delegates_inverse_rotated_point ZFloat ZCollab ZQuery
                         ZVirtuals InitialRing.Zth turned_ball s123 U)) 0%Z []).
Defined.

Lemma CastShape_keeps_world_placement_witness :
  unit_quat (mRotation turned_ball)
  /\ Mat44_mul (Mat44_mul (Mat44_sRotationTranslation half_turn_x s123)
                  (Mat44_sRotation half_turn_z))
       (mCenterOfMassStart
          (ShapeCast_PostTransformed sweep
             (Mat44_Transposed3x3 (Mat44_sRotation half_turn_z))))
     = Mat44_mul (Mat44_sRotationTranslation half_turn_x s123) (mCenterOfMassStart sweep).
Proof.
  assert (U : unit_quat (mRotation turned_ball)) by reflexivity.
  split; [exact U|].
  exact (proj1 (@CastShape_keeps_world_placement ZFloat ZCollab ZQuery ZScaleHelpers ZVirtuals
                  InitialRing.Zth turned_ball sweep
                  (Mat44_sRotationTranslation half_turn_x s123) U)).
Defined.

Lemma transformed_shape_matches_matrix_path_witness :
  unit_quat half_turn_x
  /\ unit_quat (mRotation turned_ball)
  /\ TransformedShape_GetCenterOfMassTransform
       (fst (RotatedTranslatedShape_GetSubShapeTransformedShape turned_ball 6%Z s123
               half_turn_x s123))
     = Mat44_mul (Mat44_sRotationTranslation half_turn_x s123) (Mat44_sRotation half_turn_z).
Proof.
  assert (U1 : unit_quat half_turn_x) by reflexivity.
  assert (U2 : unit_quat (mRotation turned_ball)) by reflexivity.
  split; [exact U1|]. split; [exact U2|].
  exact (proj1 (proj2 (proj2 (@transformed_shape_matches_matrix_path ZFloat ZCollab ZQuery
                                ZScaleHelpers ZVirtuals InitialRing.Zth turned_ball 6%Z s123
                                half_turn_x s123 U1 U2)))).
Defined.

Lemma nested_decorators_compose_witness :
  mInnerShape outer_ball = RotatedTranslatedShape_asShape turned_ball
  /\ unit_quat (mRotation outer_ball)
  /\ unit_quat (mRotation turned_ball)
  /\ RotatedTranslatedShape_CastRay outer_ball (mkRayCast s123 s123) 0%Z 0%Z
     = RotatedTranslatedShape_CastRay
         (mkRotatedTranslatedShape 9%Z ball (mkVec3 0 0 0)%Z
            (Quat_mul half_turn_x half_turn_z) false)
         (mkRayCast s123 s123) 0%Z 0%Z.
Proof.
  assert (U1 : unit_quat (mRotation outer_ball)) by reflexivity.
  assert (U2 : unit_quat (mRotation turned_ball)) by reflexivity.
  split; [reflexivity|]. split; [exact U1|]. split; [exact U2|].
  exact (proj1 (@nested_decorators_compose ZFloat ZCollab ZScaleHelpers ZShapeBaseOps
                  InitialRing.Zth outer_ball turned_ball eq_refl U1 U2)
           (mkRayCast s123 s123) 0%Z 0%Z).
Defined.

Lemma GetMassProperties_keeps_trace_and_symmetry_witness :
  unit_quat (mRotation turned_ball)
  /\ Mat44_trace3 (mInertia (RotatedTranslatedShape_GetMassProperties turned_ball)) = 9%Z.
Proof.
  assert (U : unit_quat (mRotation turned_ball)) by reflexivity.
  split; [exact U|].
  exact (proj1 (@GetMassProperties_keeps_trace_and_symmetry ZFloat ZCollab InitialRing.Zth
                  turned_ball U)).
Defined.

End WorkedMore.
